(** * gosns: an Amazon SNS HTTP notification endpoint, verified against its specification

    A shallow embedding of package [gosns] (registration, request dispatch,
    body extraction, subscription confirmation and notification handling)
    and of the part of Go's [time] package that the fixed layout
    [amzTimeFormat] exercises, followed by the properties of the
    specification, each stated on these definitions.

    Go strings and byte slices are sequences of bytes: both are [string]
    (a list of 8-bit [ascii]) here, so [string(jsonBytes)] is the identity.
    Go's [int] is a [Z]. *)

From Stdlib Require Import ZArith Ascii String List Lia Bool.
From Stdlib Require PrimFloat.
From stdpp Require Import gmap strings.

Local Open Scope Z_scope.
Set Warnings "-register-all".

(** ** Decimal digits *)

Module Digits.

Definition digitChar (d : Z) : ascii := ascii_of_N (Z.to_N (48 + d)).

Definition code (c : ascii) : Z := Z.of_N (N_of_ascii c).

(** [isDigit]: ['0' <= c && c <= '9']. *)
Definition isDigit (c : ascii) : bool := (48 <=? code c) && (code c <=? 57).

(** [int(c - '0')]. *)
Definition digitVal (c : ascii) : Z := code c - 48.

Fixpoint zeros (n : nat) : string :=
  match n with
  | O => ""
  | S n' => String "0" (zeros n')
  end.

(** The decimal digits of [u >= 0], most significant first, without
    padding; [fuel] bounds the number of digits (a 64-bit value has at
    most 20). *)
Fixpoint itoa (fuel : nat) (u : Z) : string :=
  match fuel with
  | O => ""
  | S fuel' =>
      (if u / 10 =? 0 then "" else itoa fuel' (u / 10))
        +:+ String (digitChar (u mod 10)) ""
  end.

(** [appendInt(b, x, width)] of package time: the bytes it appends to [b],
    a minus sign for a negative [x], then the decimal digits of [|x|]
    padded with zeros on the left up to [width] digits. *)
Definition appendInt (x : Z) (width : nat) : string :=
  let u := Z.abs x in
  let ds := itoa 20 u in
  (if x <? 0 then "-" else "")
    +:+ zeros (width - String.length ds) +:+ ds.

(** Exactly [w] digits of [u], most significant first. *)
Fixpoint fixed (w : nat) (u : Z) : string :=
  match w with
  | O => ""
  | S w' => fixed w' (u / 10) +:+ String (digitChar (u mod 10)) ""
  end.

(** The value of a string of digits read as a decimal number. *)
Fixpoint valueFrom (acc : Z) (s : string) : Z :=
  match s with
  | EmptyString => acc
  | String c s' => valueFrom (acc * 10 + digitVal c) s'
  end.

Fixpoint allDigits (s : string) : bool :=
  match s with
  | EmptyString => true
  | String c s' => isDigit c && allDigits s'
  end.

(** Splits [s] into its longest prefix of digits and the rest. *)
Fixpoint spanDigits (s : string) : string * string :=
  match s with
  | EmptyString => (EmptyString, EmptyString)
  | String c s' =>
      if isDigit c
      then let '(ds, rest) := spanDigits s' in (String c ds, rest)
      else (EmptyString, s)
  end.

(** The loop [for len(b) > 0 && b[len(b)-1] == '0' { b = b[:len(b)-1] }]:
    removes the zeros at the end of [s]. *)
Fixpoint trimZeros (s : string) : string :=
  match s with
  | EmptyString => EmptyString
  | String c s' =>
      match trimZeros s' with
      | EmptyString => if Ascii.eqb c "0" then EmptyString else String c EmptyString
      | t => String c t
      end
  end.

(** [rest] does not go on with a digit. *)
Definition noDigitAhead (rest : string) : Prop :=
  match rest with
  | String c _ => isDigit c = false
  | EmptyString => True
  end.

End Digits.

(** ** The part of Go's package time that [amzTimeFormat] uses *)

Module GoTime.
Import Digits.

(** An instant, presented as [Time.Date] and [Time.Clock] present it in
    UTC: the civil date, the time of day and the nanoseconds within the
    second.  Two instants are equal exactly when these fields are. *)
Record Time : Type := mkTime {
  Year : Z;
  Month : Z;
  Day : Z;
  Hour : Z;
  Minute : Z;
  Second : Z;
  Nanosecond : Z
}.

(** The zero value [Time{}]: January 1, year 1, 00:00:00.000000000 UTC. *)
Definition zeroTime : Time := mkTime 1 1 1 0 0 0 0.

Definition isLeap (year : Z) : bool :=
  (Z.rem year 4 =? 0) && (negb (Z.rem year 100 =? 0) || (Z.rem year 400 =? 0)).

Definition daysBefore : list Z :=
  [0; 31; 31 + 28; 31 + 28 + 31; 31 + 28 + 31 + 30; 31 + 28 + 31 + 30 + 31;
   31 + 28 + 31 + 30 + 31 + 30; 31 + 28 + 31 + 30 + 31 + 30 + 31;
   31 + 28 + 31 + 30 + 31 + 30 + 31 + 31;
   31 + 28 + 31 + 30 + 31 + 30 + 31 + 31 + 30;
   31 + 28 + 31 + 30 + 31 + 30 + 31 + 31 + 30 + 31;
   31 + 28 + 31 + 30 + 31 + 30 + 31 + 31 + 30 + 31 + 30;
   31 + 28 + 31 + 30 + 31 + 30 + 31 + 31 + 30 + 31 + 30 + 31].

Definition daysIn (m year : Z) : Z :=
  if (m =? 2) && isLeap year then 29
  else nth (Z.to_nat m) daysBefore 0 - nth (Z.to_nat (m - 1)) daysBefore 0.

(** The instants of the model: every field in the range [Time.Date] and
    [Time.Clock] return it in. *)
Definition validTime (t : Time) : Prop :=
  1 <= Month t <= 12 /\ 1 <= Day t <= daysIn (Month t) (Year t) /\
  0 <= Hour t < 24 /\ 0 <= Minute t < 60 /\ 0 <= Second t < 60 /\
  0 <= Nanosecond t < 1000000000.

(** The elements a layout is cut into by [nextStdChunk]. *)
Inductive chunk : Type :=
  | stdLongYear            (* "2006" *)
  | stdZeroMonth           (* "01" *)
  | stdZeroDay             (* "02" *)
  | stdHour                (* "15" *)
  | stdZeroMinute          (* "04" *)
  | stdZeroSecond          (* "05" *)
  | stdFracSecond9 (n : nat) (* ".999", n nines: trailing zeros removed *)
  | literal (s : string).

Definition chunkText (c : chunk) : string :=
  match c with
  | stdLongYear => "2006"
  | stdZeroMonth => "01"
  | stdZeroDay => "02"
  | stdHour => "15"
  | stdZeroMinute => "04"
  | stdZeroSecond => "05"
  | stdFracSecond9 n => String "." (String.concat "" (repeat "9"%string n))
  | literal s => s
  end.

Definition layoutText (l : list chunk) : string :=
  String.concat "" (map chunkText l).

(** [appendNano] for a [stdFracSecond9] element. *)
Definition appendNano (nanosec : Z) (n : nat) : string :=
  if (Nat.eqb n 0) || (nanosec =? 0) then ""
  else
    let b := String "." (String.substring 0 n (appendInt nanosec 9)) in
    match trimZeros b with
    | String "." EmptyString => ""
    | b' => b'
    end.

Definition formatChunk (t : Time) (c : chunk) : string :=
  match c with
  | stdLongYear => appendInt (Year t) 4
  | stdZeroMonth => appendInt (Month t) 2
  | stdZeroDay => appendInt (Day t) 2
  | stdHour => appendInt (Hour t) 2
  | stdZeroMinute => appendInt (Minute t) 2
  | stdZeroSecond => appendInt (Second t) 2
  | stdFracSecond9 n => appendNano (Nanosecond t) n
  | literal s => s
  end.

(** [Time.Format] over a layout already cut into its elements. *)
Definition formatLayout (l : list chunk) (t : Time) : string :=
  String.concat "" (map (formatChunk t) l).

(** *** Parsing *)

(** [leadingInt]: the digits at the start of [s] as a number, and the
    rest; fails when the number exceeds [1<<63]. *)
Fixpoint leadingInt (x : Z) (s : string) : option (Z * string) :=
  match s with
  | String c s' =>
      if isDigit c then
        if x >? 2 ^ 63 / 10 then None
        else
          let x' := x * 10 + digitVal c in
          if x' >? 2 ^ 63 then None else leadingInt x' s'
      else Some (x, s)
  | EmptyString => Some (x, s)
  end.

(** The conversion [int(q)] of a [uint64]. *)
Definition toInt (q : Z) : Z := if q >=? 2 ^ 63 then q - 2 ^ 64 else q.

Definition atoi (s : string) : option Z :=
  let '(neg, s1) :=
    match s with
    | String c r =>
        if Ascii.eqb c "-" then (true, r)
        else if Ascii.eqb c "+" then (false, r)
        else (false, s)
    | EmptyString => (false, s)
    end in
  match leadingInt 0 s1 with
  | Some (q, EmptyString) => Some (if neg : bool then - toInt q else toInt q)
  | _ => None
  end.

(** [isDigit(s, i)] of package time: whether [s] has a digit at index [i]. *)
Definition isDigitAt (s : string) (i : nat) : bool :=
  match String.get i s with
  | Some c => isDigit c
  | None => false
  end.

(** [getnum]: one or two digits; exactly two when [fixed]. *)
Definition getnum (s : string) (fixed : bool) : option (Z * string) :=
  match s with
  | String c0 s1 =>
      if isDigit c0 then
        match s1 with
        | String c1 s2 =>
            if isDigit c1 then Some (digitVal c0 * 10 + digitVal c1, s2)
            else if fixed then None else Some (digitVal c0, s1)
        | EmptyString => if fixed then None else Some (digitVal c0, s1)
        end
      else None
  | EmptyString => None
  end.

Fixpoint cutspace (s : string) : string :=
  match s with
  | String " " s' => cutspace s'
  | _ => s
  end.

(** [skip(value, prefix)]: removes the literal [prefix] from the start of
    [value]; a run of blanks in [prefix] matches a run of blanks, also an
    empty one at the end of [value]. *)
Fixpoint skipLoop (fuel : nat) (value pfx : string) : option string :=
  match pfx with
  | EmptyString => Some value
  | String p pfx' =>
      match fuel with
      | O => None
      | S fuel' =>
          if Ascii.eqb p " " then
            match value with
            | String v _ =>
                if Ascii.eqb v " "
                then skipLoop fuel' (cutspace value) (cutspace pfx)
                else None
            | EmptyString => skipLoop fuel' (cutspace value) (cutspace pfx)
            end
          else
            match value with
            | String v value' =>
                if Ascii.eqb v p then skipLoop fuel' value' pfx' else None
            | EmptyString => None
            end
      end
  end.

Definition skip (value pfx : string) : option string :=
  skipLoop (String.length pfx) value pfx.

Definition commaOrPeriod (c : ascii) : bool :=
  Ascii.eqb c "." || Ascii.eqb c ",".

(** [parseNanoseconds(value, nbytes)]: [value] starts with the separator;
    the [nbytes - 1] digits after it, at most nine of them, scaled to
    nanoseconds. *)
Definition parseNanoseconds (value : string) (nbytes : nat) : option Z :=
  match value with
  | String c _ =>
      if commaOrPeriod c then
        let nbytes' := Nat.min nbytes 10 in
        match atoi (String.substring 1 (nbytes' - 1) value) with
        | Some ns =>
            if ns <? 0 then None
            else Some (ns * 10 ^ Z.of_nat (10 - nbytes'))
        | None => None
        end
      else None
  | EmptyString => None
  end.

(** The element that follows in the layout, literal text skipped:
    the [std] of [nextStdChunk(layout)]. *)
Fixpoint nextStd (l : list chunk) : option chunk :=
  match l with
  | [] => None
  | literal _ :: l' => nextStd l'
  | c :: _ => Some c
  end.

Definition isFracSecond (c : option chunk) : bool :=
  match c with
  | Some (stdFracSecond9 _) => true
  | _ => false
  end.

(** Whether [value] starts with a separator and a digit. *)
Definition startsFraction (value : string) : bool :=
  match value with
  | String c0 (String c1 _) => commaOrPeriod c0 && isDigit c1
  | _ => false
  end.

(** [Date(year, month, day, hour, min, sec, nsec, UTC)] where [Parse]
    calls it: every field has been checked to be in its range, so none is
    carried over into the next. *)
Definition Date (year month day hour min sec nsec : Z) : Time :=
  mkTime year month day hour min sec nsec.

(** The fields [Parse] collects, in a [Time] record: initially
    [year = 0], [month = -1], [day = -1] and the clock at zero. *)
Definition noFields : Time := mkTime 0 (-1) (-1) 0 0 0 0.

Definition finishParse (f : Time) : option Time :=
  let month := if Month f <? 0 then 1 else Month f in
  let day := if Day f <? 0 then 1 else Day f in
  if (day <? 1) || (day >? daysIn month (Year f)) then None
  else Some (Date (Year f) month day (Hour f) (Minute f) (Second f) (Nanosecond f)).

(** The loop of [Parse]: one element of the layout at a time, [None] for
    any of its errors. *)
Fixpoint parseChunks (l : list chunk) (value : string) (f : Time) : option Time :=
  match l with
  | [] => match value with EmptyString => finishParse f | _ => None end
  | c :: l' =>
      match c with
      | literal s =>
          match skip value s with
          | Some value' => parseChunks l' value' f
          | None => None
          end
      | stdLongYear =>
          if (String.length value <? 4)%nat || negb (isDigitAt value 0) then None
          else
            match atoi (String.substring 0 4 value) with
            | Some year =>
                parseChunks l'
                  (String.substring 4 (String.length value - 4) value)
                  (mkTime year (Month f) (Day f) (Hour f) (Minute f)
                     (Second f) (Nanosecond f))
            | None => None
            end
      | stdZeroMonth =>
          match getnum value true with
          | Some (month, value') =>
              if (month <=? 0) || (12 <? month) then None
              else parseChunks l' value'
                     (mkTime (Year f) month (Day f) (Hour f) (Minute f)
                        (Second f) (Nanosecond f))
          | None => None
          end
      | stdZeroDay =>
          match getnum value true with
          | Some (day, value') =>
              parseChunks l' value'
                (mkTime (Year f) (Month f) day (Hour f) (Minute f)
                   (Second f) (Nanosecond f))
          | None => None
          end
      | stdHour =>
          match getnum value false with
          | Some (hour, value') =>
              if (hour <? 0) || (24 <=? hour) then None
              else parseChunks l' value'
                     (mkTime (Year f) (Month f) (Day f) hour (Minute f)
                        (Second f) (Nanosecond f))
          | None => None
          end
      | stdZeroMinute =>
          match getnum value true with
          | Some (min, value') =>
              if (min <? 0) || (60 <=? min) then None
              else parseChunks l' value'
                     (mkTime (Year f) (Month f) (Day f) (Hour f) min
                        (Second f) (Nanosecond f))
          | None => None
          end
      | stdZeroSecond =>
          match getnum value true with
          | Some (sec, value') =>
              if (sec <? 0) || (60 <=? sec) then None
              else
                let f' := mkTime (Year f) (Month f) (Day f) (Hour f)
                            (Minute f) sec (Nanosecond f) in
                if startsFraction value' && negb (isFracSecond (nextStd l'))
                then
                  (* a fraction in the input and none in the layout *)
                  let n := S (String.length (fst (spanDigits
                             (String.substring 1 (String.length value' - 1) value')))) in
                  match parseNanoseconds value' n with
                  | Some nsec =>
                      parseChunks l'
                        (String.substring n (String.length value' - n) value')
                        (mkTime (Year f) (Month f) (Day f) (Hour f)
                           (Minute f) sec nsec)
                  | None => None
                  end
                else parseChunks l' value' f'
          | None => None
          end
      | stdFracSecond9 _ =>
          if startsFraction value then
            let n := S (String.length (fst (spanDigits
                       (String.substring 1 (String.length value - 1) value)))) in
            match parseNanoseconds value n with
            | Some nsec =>
                parseChunks l'
                  (String.substring n (String.length value - n) value)
                  (mkTime (Year f) (Month f) (Day f) (Hour f) (Minute f)
                     (Second f) nsec)
            | None => None
            end
          else
            (* fractional second omitted *)
            parseChunks l' value f
      end
  end.

(** [const amzTimeFormat = "2006-01-02T15:04:05.999999999Z"]. *)
Definition amzTimeFormat : string := "2006-01-02T15:04:05.999999999Z".

(** [amzTimeFormat] as [nextStdChunk] cuts it.  A ["Z"] that is not
    followed by ["07"] is no zone element: it is literal text, written as
    it is by [Format] and required as it is by [Parse], which then takes
    the time to be in UTC. *)
Definition amzLayout : list chunk :=
  [stdLongYear; literal "-"; stdZeroMonth; literal "-"; stdZeroDay;
   literal "T"; stdHour; literal ":"; stdZeroMinute; literal ":";
   stdZeroSecond; stdFracSecond9 9; literal "Z"].

(** [t.Format(amzTimeFormat)], for [t] in UTC. *)
Definition Format (t : Time) : string := formatLayout amzLayout t.

(** [time.Parse(amzTimeFormat, value)]: the time, or [None] for an error
    (Go then returns the zero [Time] beside the error). *)
Definition Parse (value : string) : option Time :=
  parseChunks amzLayout value noFields.

(** [tm, _ := time.Parse(amzTimeFormat, value)]. *)
Definition parsedOrZero (value : string) : Time :=
  match Parse value with
  | Some t => t
  | None => zeroTime
  end.

End GoTime.


(** ** [fmt.Sscanf(str, "%d", &n)] *)

Module GoFmt.
Import Digits.

(** [utf8.RuneError], the rune a byte sequence that is no UTF-8 encoding
    decodes to. *)
Definition RuneError : Z := 65533.

Definition between (lo hi : Z) (c : ascii) : bool :=
  (lo <=? code c) && (code c <=? hi).

(** The six payload bits of a continuation byte. *)
Definition low6 (c : ascii) : Z := Z.land (code c) 63.

(** [utf8.DecodeRuneInString]: the rune a string starts with and the
    number of bytes it takes.  The first byte gives the size and the range
    of the second byte (package utf8's tables [first] and [acceptRanges]);
    what is not the shortest encoding of a code point, and a string that
    ends within the rune, decode to [RuneError] of width 1.  The scanner
    reads its runes this way: it collects bytes until [utf8.FullRune] and
    hands the bytes an invalid rune did not take back to the input. *)
Definition DecodeRuneInString (s : string) : Z * nat :=
  match s with
  | EmptyString => (RuneError, 0%nat)
  | String c0 s1 =>
      let p0 := code c0 in
      if p0 <? 128 then (p0, 1%nat)
      else if (p0 <? 194) || (244 <? p0) then (RuneError, 1%nat)
      else
        let sz := if p0 <? 224 then 2 else if p0 <? 240 then 3 else 4 in
        let lo := if p0 =? 224 then 160 else if p0 =? 240 then 144 else 128 in
        let hi := if p0 =? 237 then 159 else if p0 =? 244 then 143 else 191 in
        match s1 with
        | EmptyString => (RuneError, 1%nat)
        | String c1 s2 =>
            if negb (between lo hi c1) then (RuneError, 1%nat)
            else if sz =? 2 then
              (Z.lor (Z.shiftl (Z.land p0 31) 6) (low6 c1), 2%nat)
            else
              match s2 with
              | EmptyString => (RuneError, 1%nat)
              | String c2 s3 =>
                  if negb (between 128 191 c2) then (RuneError, 1%nat)
                  else if sz =? 3 then
                    (Z.lor (Z.shiftl (Z.land p0 15) 12)
                       (Z.lor (Z.shiftl (low6 c1) 6) (low6 c2)), 3%nat)
                  else
                    match s3 with
                    | EmptyString => (RuneError, 1%nat)
                    | String c3 _ =>
                        if negb (between 128 191 c3) then (RuneError, 1%nat)
                        else
                          (Z.lor (Z.shiftl (Z.land p0 7) 18)
                             (Z.lor (Z.shiftl (low6 c1) 12)
                                (Z.lor (Z.shiftl (low6 c2) 6) (low6 c3))),
                           4%nat)
                    end
              end
        end
  end.

(** Package fmt's table [space] of the blanks, as ranges of runes. *)
Definition space : list (Z * Z) :=
  [(9, 13); (32, 32); (133, 133); (160, 160); (5760, 5760); (8192, 8202);
   (8232, 8233); (8239, 8239); (8287, 8287); (12288, 12288)].

Fixpoint inRanges (rx : Z) (ranges : list (Z * Z)) : bool :=
  match ranges with
  | [] => false
  | (lo, hi) :: ranges' =>
      if rx <? lo then false
      else if rx <=? hi then true
      else inRanges rx ranges'
  end.

(** [isSpace]: a rune of the table, the newline among them; [SkipSpace]
    treats the newline before it asks. *)
Definition isSpace (r : Z) : bool :=
  if 65536 <=? r then false else inRanges r space.

Fixpoint dropBytes (n : nat) (s : string) : string :=
  match n, s with
  | S n', String _ s' => dropBytes n' s'
  | _, _ => s
  end.

(** The loop of [SkipSpace]; every round takes a rune of one byte at
    least, so that the length of the string is fuel enough. *)
Fixpoint skipSpaces (fuel : nat) (s : string) : option string :=
  match fuel, s with
  | S fuel', String _ _ =>
      let '(r, width) := DecodeRuneInString s in
      if r =? 10 then None
      else if isSpace r then skipSpaces fuel' (dropBytes width s)
      else Some s
  | _, _ => Some s
  end.

(** [SkipSpace] as [Sscanf] runs it: a newline is an error there. *)
Definition SkipSpace (s : string) : option string :=
  skipSpaces (String.length s) s.

(** The characters [scanNumber] accepts for the verb [%d]:
    ["0123456789_"]. *)
Definition isDecimalDigitOrUnderscore (c : ascii) : bool :=
  isDigit c || Ascii.eqb c "_".

Fixpoint scanNumber (s : string) : string * string :=
  match s with
  | String c s' =>
      if isDecimalDigitOrUnderscore c
      then let '(tok, rest) := scanNumber s' in (String c tok, rest)
      else (EmptyString, s)
  | EmptyString => (EmptyString, EmptyString)
  end.

(** [n, err := fmt.Sscanf(str, "%d", &nbytes)]: [Some nbytes] when
    [n == 1 && err == nil], [None] otherwise.  Blanks before the number
    are skipped, a sign is accepted, the digits are read up to the first
    other character (what follows is left unread), and
    [strconv.ParseInt(tok, 10, 64)] refuses an underscore and a value
    outside of 64 bits. *)
Definition Sscanf_d (str : string) : option Z :=
  match SkipSpace str with
  | None => None
  | Some EmptyString => None
  | Some (String c s' as s) =>
      let '(neg, s1) :=
        if Ascii.eqb c "-" then (true, s')
        else if Ascii.eqb c "+" then (false, s')
        else (false, s) in
      let '(tok, _) := scanNumber s1 in
      match tok with
      | EmptyString => None
      | _ =>
          if allDigits tok then
            let v := if neg : bool then - valueFrom 0 tok else valueFrom 0 tok in
            if (- 2 ^ 63 <=? v) && (v <? 2 ^ 63) then Some v else None
          else None
      end
  end.

End GoFmt.

(** ** [http.Header] *)

Module GoHttp.
Import Digits.

Definition isLower (c : ascii) : bool := (97 <=? code c) && (code c <=? 122).
Definition isUpper (c : ascii) : bool := (65 <=? code c) && (code c <=? 90).

(** [validHeaderFieldByte]: the characters of an RFC 7230 token. *)
Definition validHeaderFieldByte (c : ascii) : bool :=
  isLower c || isUpper c || isDigit c ||
  existsb (Ascii.eqb c)
    ["!"; "#"; "$"; "%"; "&"; "'"; "*"; "+"; "-"; "."; "^"; "_"; "`"; "|"; "~"]%char.

Fixpoint allValid (s : string) : bool :=
  match s with
  | EmptyString => true
  | String c s' => validHeaderFieldByte c && allValid s'
  end.

Definition shift (c : ascii) (d : Z) : ascii := ascii_of_N (Z.to_N (code c + d)).

Fixpoint canonical (upper : bool) (s : string) : string :=
  match s with
  | EmptyString => EmptyString
  | String c s' =>
      let c' :=
        if upper && isLower c then shift c (-32)
        else if negb upper && isUpper c then shift c 32
        else c in
      String c' (canonical (Ascii.eqb c' "-") s')
  end.

(** [textproto.CanonicalMIMEHeaderKey]: the first letter and every letter
    after a hyphen in upper case, the others in lower case; a key that is
    no token is returned as it is. *)
Definition CanonicalMIMEHeaderKey (s : string) : string :=
  if allValid s then canonical true s else s.

(** [http.Header], a [map[string][]string]. *)
Abbreviation Header := (gmap string (list string)).

(** [h.Get(key)]: the first value under the canonical form of [key],
    [""] when there is none. *)
Definition Header_Get (h : Header) (key : string) : string :=
  match h !! CanonicalMIMEHeaderKey key with
  | Some (v :: _) => v
  | _ => ""
  end.

(** [h.Set(key, value)]. *)
Definition Header_Set (h : Header) (key value : string) : Header :=
  <[CanonicalMIMEHeaderKey key := [value]]> h.

(** The line feed [fmt.Fprintln] and the logger end a line with. *)
Definition newline : string := String (ascii_of_nat 10) EmptyString.

Definition StatusOK : Z := 200.
Definition StatusBadRequest : Z := 400.
Definition StatusNotFound : Z := 404.
Definition StatusNotImplemented : Z := 501.

(** What a handler has done to its [http.ResponseWriter]: the header map,
    the status code once [WriteHeader] has run, and the bytes written. *)
Record ResponseWriter : Type := mkResponseWriter {
  wHeader : Header;
  wStatus : option Z;
  wBody : string
}.

Definition newResponseWriter : ResponseWriter := mkResponseWriter ∅ None "".

(** [w.WriteHeader(code)]: only the first call sets the status. *)
Definition WriteHeader (w : ResponseWriter) (code : Z) : ResponseWriter :=
  match wStatus w with
  | Some _ => w
  | None => mkResponseWriter (wHeader w) (Some code) (wBody w)
  end.

(** [w.Write(p)]: sends the status 200 first when none has been sent. *)
Definition Write (w : ResponseWriter) (p : string) : ResponseWriter :=
  let w' := WriteHeader w StatusOK in
  mkResponseWriter (wHeader w') (wStatus w') (wBody w' +:+ p).

(** [*http.Request], as far as the handler reads it: [r.URL.Path],
    [r.Header] and the bytes [r.Body] delivers before it ends. *)
Record Request : Type := mkRequest {
  URL_Path : string;
  Header_ : Header;
  Body : string
}.

End GoHttp.

(** ** Package gosns *)

Module Gosns.
Import Digits GoTime GoFmt GoHttp.

(** An [interface{}] as [json.Unmarshal] fills it: [nil] for [null], a
    [bool], a [float64], a [string], a [[]interface{}] or a
    [map[string]interface{}]. *)
Inductive value : Type :=
  | VNil
  | VBool (b : bool)
  | VFloat64 (f : PrimFloat.float)
  | VString (s : string)
  | VSlice (l : list value)
  | VMap (m : list (string * value)).

(** The dynamic type, as a panic of a type assertion names it. *)
Definition typeName (v : value) : string :=
  match v with
  | VNil => "nil"
  | VBool _ => "bool"
  | VFloat64 _ => "float64"
  | VString _ => "string"
  | VSlice _ => "[]interface {}"
  | VMap _ => "map[string]interface {}"
  end.

(** [data[key]] on a [map[string]interface{}]: [nil] for a missing key. *)
Definition index (data : gmap string value) (key : string) : value :=
  default VNil (data !! key).

(** The result of [err = json.Unmarshal(jsonBytes, &data)]: an error, or
    the map [data] then holds, which is [nil] ([None]) when the text is
    the JSON [null]. *)
Inductive unmarshaled : Type :=
  | UnmarshalError
  | Unmarshaled (data : option (gmap string value)).

(** What the handler takes from its surroundings: the decoder of package
    encoding/json, whether [http.Get(url)] returns an error, and the
    instant [time.Now()] returns, in UTC. *)
Record Runtime : Type := mkRuntime {
  json_Unmarshal : string -> unmarshaled;
  http_Get_fails : string -> bool;
  time_Now : Time
}.

Module Message.
(** [type Message struct]. *)
Record t : Type := mk {
  Subject : string;
  Message : string;
  MessageId : string;
  Timestamp : Time
}.
End Message.

(** A call returns or panics. *)
Inductive outcome (A : Type) : Type :=
  | Returned (a : A)
  | Panicked (msg : string).
Arguments Returned {A} a.
Arguments Panicked {A} msg.

Section WithCallbacks.

(** The callbacks, function values taking a pointer to a [Message]; the
    handler only starts them. *)
Context {Func : Type}.

Record topicDescription : Type := mkTopicDescription {
  TopicARN : string;
  Callback : Func
}.

(** [type Server struct]: [Logger] is [None] for a nil [*log.Logger] and
    [Some tt] for a logger, [topics] is [None] for the nil map. *)
Record Server : Type := mkServer {
  Logger : option unit;
  topics : option (gmap string topicDescription)
}.

(** [s.topics[path]]: reading the nil map finds nothing. *)
Definition topics_lookup (s : Server) (path : string) : option topicDescription :=
  match topics s with
  | Some m => m !! path
  | None => None
  end.

(** What a call does beside writing its response. *)
Inductive event : Type :=
  | Printf (text : string)          (* fmt.Printf: the format, arguments not rendered *)
  | LoggerPrint (text : string)     (* s.Logger.Printf and Println *)
  | HttpGet (url : string)          (* http.Get(url) *)
  | Go (f : Func) (arg : option Message.t). (* go f(arg), arg nil or &msg *)

(** The state a request is served in. *)
Record exchange : Type := mkExchange {
  w : ResponseWriter;
  unread : string;       (* what r.Body has not delivered yet *)
  bodyClosed : bool;
  trace : list event     (* oldest first *)
}.

(** A computation over an [exchange] that returns or panics. *)
Definition M (A : Type) : Type := exchange -> outcome A * exchange.

Definition ret {A} (a : A) : M A := fun st => (Returned a, st).

Definition bind {A B} (m : M A) (k : A -> M B) : M B :=
  fun st =>
    match m st with
    | (Returned a, st') => k a st'
    | (Panicked msg, st') => (Panicked msg, st')
    end.

Definition panic {A} (msg : string) : M A := fun st => (Panicked msg, st).

Definition emit (e : event) : M unit :=
  fun st => (Returned tt,
             mkExchange (w st) (unread st) (bodyClosed st) (trace st ++ [e])).

Definition onWriter (f : ResponseWriter -> ResponseWriter) : M unit :=
  fun st => (Returned tt,
             mkExchange (f (w st)) (unread st) (bodyClosed st) (trace st)).

Notation "x <- m ;; k" := (bind m (fun x => k))
  (at level 100, m at next level, right associativity).
Notation "m ;;; k" := (bind m (fun _ => k))
  (at level 100, right associativity).

(** The largest allocation of the Go runtime where [int] has 64 bits
    ([maxAlloc], 48 bits of heap address). *)
Definition maxAlloc : Z := 2 ^ 48.

(** [make([]byte, nbytes, nbytes)]: [makeslice] panics for a negative
    length and for one above [maxAlloc]; from 0 to [maxAlloc] the
    allocation is taken to succeed.  No request carries a body of
    [maxAlloc] bytes, so that a length above [maxAlloc] is more than the
    unread body holds; the test for it is written with both conditions,
    and is [maxAlloc < nbytes] for every body below [maxAlloc] bytes. *)
Definition makeslice (nbytes : Z) : M unit :=
  fun st =>
    if (nbytes <? 0) ||
       ((maxAlloc <? nbytes) && (Z.of_nat (String.length (unread st)) <? nbytes))
    then (Panicked "runtime error: makeslice: len out of range", st)
    else (Returned tt, st).

(** [io.ReadFull(r.Body, buf)] for a [buf] of [nbytes >= 0] bytes: the
    bytes when the body delivers that many, [None] when it ends before
    ([n != nbytes || err != nil]). *)
Definition ReadFull (nbytes : Z) : M (option string) :=
  fun st =>
    let n := Z.to_nat nbytes in
    if (n <=? String.length (unread st))%nat then
      (Returned (Some (String.substring 0 n (unread st))),
       mkExchange (w st)
         (String.substring n (String.length (unread st) - n) (unread st))
         (bodyClosed st) (trace st))
    else
      (Returned None, mkExchange (w st) "" (bodyClosed st) (trace st)).

(** [r.Body.Close()]. *)
Definition closeBody : M unit :=
  fun st => (Returned tt, mkExchange (w st) (unread st) true (trace st)).

(** [x.(string)]. *)
Definition assertString (x : value) : M string :=
  match x with
  | VString s => ret s
  | _ => panic ("interface conversion: interface {} is "
                  +:+ typeName x +:+ ", not string")
  end.

Definition simpleResponse (code : Z) (msg : string) : M unit :=
  onWriter (fun w => mkResponseWriter
              (Header_Set (wHeader w) "Content-Type" "text/plain; charset=utf-8")
              (wStatus w) (wBody w)) ;;;
  onWriter (fun w => WriteHeader w code) ;;;
  onWriter (fun w => Write w (msg +:+ newline)).

Variable rt : Runtime.

(** [extractJsonBody]: the map, or [None] for the nil map. *)
Definition extractJsonBody (r : Request) : M (option (gmap string value)) :=
  match Sscanf_d (Header_Get (Header_ r) "Content-Length") with
  | None => emit (Printf "no content-length??\n%+v") ;;; ret None
  | Some nbytes =>
      makeslice nbytes ;;;
      read <- ReadFull nbytes ;;
      match read with
      | None => emit (Printf "error reading body (%d,%d) %v") ;;; ret None
      | Some jsonBytes =>
          if decide (Header_Get (Header_ r) "x-amz-sns-rawdelivery" = "true") then
            ret (Some
              (<["Timestamp" := VString (Format (time_Now rt))]>
               (<["MessageId" :=
                    VString (Header_Get (Header_ r) "x-amz-sns-message-id")]>
                (<["Message" := VString jsonBytes]>
                 (<["Subject" := VString ""]> ∅)))))
          else
            match json_Unmarshal rt jsonBytes with
            | UnmarshalError =>
                emit (Printf "error parsing json body %v") ;;; ret None
            | Unmarshaled data => ret data
            end
      end
  end.

Definition confirmSub (s : Server) (td : topicDescription) (r : Request) : M unit :=
  data <- extractJsonBody r ;;
  match data with
  | None => ret tt
  | Some data =>
      subURL <- assertString (index data "SubscribeURL") ;;
      emit (HttpGet subURL) ;;;
      if http_Get_fails rt subURL then
        emit (Printf "error confirming subscription: %v")
      else
        closeBody ;;;
        match Logger s with
        | Some _ =>
            emit (LoggerPrint ("Endpoint '" +:+ URL_Path r
                    +:+ "' confirmed subscription for topic '"
                    +:+ TopicARN td +:+ "'" +:+ newline))
        | None => ret tt
        end ;;;
        (* ping callback to allow for init *)
        emit (Go (Callback td) None)
  end.

Definition processMessage (s : Server) (td : topicDescription) (r : Request) : M unit :=
  data <- extractJsonBody r ;;
  match data with
  | None => ret tt
  | Some data =>
      timeStr <- assertString (index data "Timestamp") ;;
      let tm := parsedOrZero timeStr in
      message <- assertString (index data "Message") ;;
      messageId <- assertString (index data "MessageId") ;;
      subject <-
        match index data "Subject" with
        | VNil => ret ""
        | v => assertString v
        end ;;
      let msg := Message.mk subject message messageId tm in
      match Logger s with
      | Some _ =>
          emit (LoggerPrint ("Endpoint '" +:+ URL_Path r
                  +:+ "' got message for topic '" +:+ TopicARN td
                  +:+ "':" +:+ newline)) ;;;
          emit (LoggerPrint ("    MessageId: " +:+ Message.MessageId msg
                  +:+ newline))
      | None => ret tt
      end ;;;
      emit (Go (Callback td) (Some msg))
  end.

Definition ServeHTTP (s : Server) (r : Request) : M unit :=
  match topics_lookup s (URL_Path r) with
  | Some td =>
      (* check that topic is configured correctly *)
      let amzTopic := Header_Get (Header_ r) "x-amz-sns-topic-arn" in
      if decide (TopicARN td = amzTopic) then
        (* determine message type *)
        let amzType := Header_Get (Header_ r) "x-amz-sns-message-type" in
        if decide (amzType = "SubscriptionConfirmation") then
          confirmSub s td r ;;; simpleResponse StatusOK "ok"
        else if decide (amzType = "Notification") then
          processMessage s td r ;;; simpleResponse StatusOK "ok"
        else simpleResponse StatusNotImplemented "not implemented"
      else
        (* write out a 400 *)
        simpleResponse StatusBadRequest "bad request"
  | None =>
      (* write out a 404 *)
      simpleResponse StatusNotFound "not found"
  end.

(** [AddTopic]: the server after the call and the line its logger
    prints, or a panic.  [endpoint[:1]] is outside of an empty string. *)
Definition AddTopic (s : Server) (topicARN endpoint : string) (callback : Func)
  : outcome (Server * list event) :=
  let t := mkTopicDescription topicARN callback in
  match endpoint with
  | EmptyString =>
      Panicked "runtime error: slice bounds out of range [:1] with length 0"
  | String c _ =>
      let endpoint :=
        if negb (Ascii.eqb c "/") then "/" +:+ endpoint else endpoint in
      let topics' :=
        match topics s with
        | None => {[ endpoint := t ]}
        | Some m => <[ endpoint := t ]> m
        end in
      Returned
        (mkServer (Logger s) (Some topics'),
         match Logger s with
         | Some _ =>
             [LoggerPrint ("Adding endpoint '" +:+ endpoint +:+ "' for topic '"
                +:+ topicARN +:+ "'" +:+ newline)]
         | None => []
         end)
  end.

(** The routing key [AddTopic] stores for a non-empty [endpoint]. *)
Definition routingKey (endpoint : string) : string :=
  match endpoint with
  | String "/" _ => endpoint
  | _ => "/" +:+ endpoint
  end.

(** A request as it reaches the handler: nothing written, nothing read. *)
Definition start (r : Request) : exchange :=
  mkExchange newResponseWriter (Body r) false [].

(** Serving [r]: whether the handler returned or panicked, and what it
    has done by then. *)
Definition serve (s : Server) (r : Request) : outcome unit * exchange :=
  ServeHTTP s r (start r).

(** The requests [http.Get] has sent, and the callbacks started. *)
Definition gets (tr : list event) : list string :=
  omap (fun e => match e with HttpGet u => Some u | _ => None end) tr.

Definition callbacks (tr : list event) : list (Func * option Message.t) :=
  omap (fun e => match e with Go f a => Some (f, a) | _ => None end) tr.

(** [st'] differs from [st] in what was read and printed only. *)
Definition quiet (st st' : exchange) : Prop :=
  w st' = w st /\ gets (trace st') = gets (trace st) /\
  callbacks (trace st') = callbacks (trace st).

(** [m] leaves the response writer as it is, however it ends. *)
Definition keeps_w {A} (m : M A) : Prop :=
  forall st o st', m st = (o, st') -> w st' = w st.

(** *** The deliveries the specification speaks of *)

(** [r] goes to a registered path, names the channel registered there and
    has the delivery type [ty]. *)
Definition accepted (s : Server) (r : Request) (td : topicDescription)
    (ty : string) : Prop :=
  topics_lookup s (URL_Path r) = Some td /\
  Header_Get (Header_ r) "x-amz-sns-topic-arn" = TopicARN td /\
  Header_Get (Header_ r) "x-amz-sns-message-type" = ty.

(** A well-formed structured body: [Content-Length] scans as [n], the body
    delivers [n] bytes, the delivery is not a raw one, and the bytes are
    the JSON text of the object [data]. *)
Definition structuredBody (r : Request) (n : Z) (data : gmap string value) : Prop :=
  Sscanf_d (Header_Get (Header_ r) "Content-Length") = Some n /\
  0 <= n <= Z.of_nat (String.length (Body r)) /\
  Header_Get (Header_ r) "x-amz-sns-rawdelivery" <> "true" /\
  json_Unmarshal rt (String.substring 0 (Z.to_nat n) (Body r)) =
    Unmarshaled (Some data).

(** The optional field [Subject]: absent or [null] for the empty
    subject, a string otherwise. *)
Definition subjectField (data : gmap string value) (subject : string) : Prop :=
  (index data "Subject" = VNil /\ subject = "") \/
  index data "Subject" = VString subject.

(** The ways the body extraction of a request fails. *)
Inductive extractionFails (r : Request) : Prop :=
  | ContentLengthMissing :
      Header_ r !! "Content-Length" = None -> extractionFails r
  | ContentLengthNoInteger :
      Sscanf_d (Header_Get (Header_ r) "Content-Length") = None ->
      extractionFails r
  | BodyShorter (n : Z) :
      Sscanf_d (Header_Get (Header_ r) "Content-Length") = Some n ->
      Z.of_nat (String.length (Body r)) < n -> extractionFails r
  | BodyNoJSON (n : Z) :
      Sscanf_d (Header_Get (Header_ r) "Content-Length") = Some n ->
      0 <= n <= Z.of_nat (String.length (Body r)) ->
      Header_Get (Header_ r) "x-amz-sns-rawdelivery" <> "true" ->
      json_Unmarshal rt (String.substring 0 (Z.to_nat n) (Body r)) =
        UnmarshalError ->
      extractionFails r.


(** The response sent: the status code, and [msg] on a line of its own. *)
Definition responded (st : exchange) (code : Z) (msg : string) : Prop :=
  wStatus (w st) = Some code /\ wBody (w st) = msg +:+ newline.

End WithCallbacks.

Arguments topicDescription : clear implicits.
Arguments Server : clear implicits.
Arguments event : clear implicits.
Arguments exchange : clear implicits.
Arguments M : clear implicits.

End Gosns.

(** ** Deliveries to compute with *)

Module Examples.
Import Digits GoTime GoFmt GoHttp Gosns.

Definition quote : string := String (ascii_of_nat 34) EmptyString.

(** The JSON text of a member with a string value. *)
Definition member (key val : string) : string :=
  quote +:+ key +:+ quote +:+ ":" +:+ quote +:+ val +:+ quote.

Definition confirmationText : string :=
  "{" +:+ member "SubscribeURL" "http://example.test/confirm" +:+ "}".

Definition confirmationData : gmap string value :=
  {[ "SubscribeURL" := VString "http://example.test/confirm" ]}.

Definition notificationText : string :=
  "{" +:+ member "Message" "hello" +:+ "," +:+ member "MessageId" "abc"
      +:+ "," +:+ member "Timestamp" "2024-03-09T07:05:03.12Z" +:+ "}".

Definition notificationData : gmap string value :=
  <["Timestamp" := VString "2024-03-09T07:05:03.12Z"]>
   (<["MessageId" := VString "abc"]> {[ "Message" := VString "hello" ]}).

(** What [json.Unmarshal] does with the texts used below: the two objects
    above, the empty object, [null], and an error for the others, none
    of which is a JSON text. *)
Definition decoder (text : string) : unmarshaled :=
  if decide (text = confirmationText) then Unmarshaled (Some confirmationData)
  else if decide (text = notificationText) then Unmarshaled (Some notificationData)
  else if decide (text = "{}") then Unmarshaled (Some ∅)
  else if decide (text = "null") then Unmarshaled None
  else UnmarshalError.

Definition noon : Time := mkTime 2024 3 9 12 0 0 0.

(** A runtime whose [http.Get] succeeds, and one whose [http.Get] fails. *)
Definition online : Runtime := mkRuntime decoder (fun _ => false) noon.
Definition offline : Runtime := mkRuntime decoder (fun _ => true) noon.

Definition topic : topicDescription nat :=
  mkTopicDescription "arn:aws:sns:us-east-1:123456789012:orders" 1%nat.

(** A server with one registration, no logger. *)
Definition server : Server nat := mkServer None (Some {[ "/sns" := topic ]}).

Definition headers (l : list (string * string)) : Header :=
  list_to_map (map (fun '(k, v) => (k, [v])) l).

Definition delivery (path arn ty : string) (more : list (string * string))
    (body : string) : Request :=
  mkRequest path
    (headers (("X-Amz-Sns-Topic-Arn", arn) :: ("X-Amz-Sns-Message-Type", ty) :: more))
    body.

Definition confirmation : Request :=
  delivery "/sns" (TopicARN topic) "SubscriptionConfirmation"
    [("Content-Length", "46")] confirmationText.

Definition notification : Request :=
  delivery "/sns" (TopicARN topic) "Notification"
    [("Content-Length", "75")] notificationText.

(** Deliveries whose body is the empty object: no required field. *)
Definition emptyConfirmation : Request :=
  delivery "/sns" (TopicARN topic) "SubscriptionConfirmation"
    [("Content-Length", "2")] "{}".

Definition emptyNotification : Request :=
  delivery "/sns" (TopicARN topic) "Notification"
    [("Content-Length", "2")] "{}".


Definition rawHello : Request :=
  delivery "/sns" (TopicARN topic) "Notification"
    [("Content-Length", "5"); ("X-Amz-Sns-Rawdelivery", "true");
     ("X-Amz-Sns-Message-Id", "abc")] "hello".

(** A raw delivery without [Content-Length], as a chunked request is. *)
Definition rawChunked : Request :=
  delivery "/sns" (TopicARN topic) "Notification"
    [("X-Amz-Sns-Rawdelivery", "true"); ("X-Amz-Sns-Message-Id", "abc")] "hello".

(** A notification cut off after its first byte whose [Content-Length]
    is the largest [int]. *)
Definition truncatedHuge : Request :=
  delivery "/sns" (TopicARN topic) "Notification"
    [("Content-Length", "9223372036854775807")] "{".

(** Raw deliveries whose [Content-Length] is one the body does not
    supply: a negative one, and the largest [int]. *)
Definition rawNegative : Request :=
  delivery "/sns" (TopicARN topic) "Notification"
    [("Content-Length", "-1"); ("X-Amz-Sns-Rawdelivery", "true");
     ("X-Amz-Sns-Message-Id", "abc")] "hello".

Definition rawHuge : Request :=
  delivery "/sns" (TopicARN topic) "Notification"
    [("Content-Length", "9223372036854775807"); ("X-Amz-Sns-Rawdelivery", "true");
     ("X-Amz-Sns-Message-Id", "abc")] "hello".

Definition wrongChannel : Request :=
  delivery "/sns" "arn:aws:sns:us-east-1:123456789012:other" "Notification"
    [("Content-Length", "75")] notificationText.

Definition unknownPath : Request :=
  delivery "/other" (TopicARN topic) "Notification"
    [("Content-Length", "75")] notificationText.

(** The first instant of the year 10000. *)
Definition year10000 : Time := mkTime 10000 1 1 0 0 0 0.

Definition someInstant : Time := mkTime 2024 2 29 23 59 58 120000000.

End Examples.

(** ** What a call may do, in one place *)

Module Behaviour.
Import Digits GoTime GoFmt GoHttp Gosns.

Section WithCallbacks.
Context {Func : Type}.

(** The events that only print: to standard output or to the logger. *)
Definition isPrint (e : event Func) : bool :=
  match e with
  | Printf _ | LoggerPrint _ => true
  | HttpGet _ | Go _ _ => false
  end.

Definition prints (l : list (event Func)) : Prop := forallb isPrint l = true.

(** A trace without the lines of the logger. *)
Definition withoutLogger (l : list (event Func)) : list (event Func) :=
  List.filter (fun e => match e with LoggerPrint _ => false | _ => true end) l.

(** [st] with another rest of the body. *)
Definition withUnread (u : string) (st : exchange Func) : exchange Func :=
  mkExchange (w st) u (bodyClosed st) (trace st).

(** The answer the path, the channel header and the type header of a
    request call for. *)
Definition verdict (s : Server Func) (r : Request) : Z * string :=
  match topics_lookup s (URL_Path r) with
  | None => (StatusNotFound, "not found")
  | Some td =>
      if decide (TopicARN td = Header_Get (Header_ r) "x-amz-sns-topic-arn") then
        let amzType := Header_Get (Header_ r) "x-amz-sns-message-type" in
        if decide (amzType = "SubscriptionConfirmation") then (StatusOK, "ok")
        else if decide (amzType = "Notification") then (StatusOK, "ok")
        else (StatusNotImplemented, "not implemented")
      else (StatusBadRequest, "bad request")
  end.

(** The response [simpleResponse(w, code, msg)] leaves in a writer that
    nothing was written to. *)
Definition response (code : Z) (msg : string) : ResponseWriter :=
  mkResponseWriter {[ "Content-Type" := ["text/plain; charset=utf-8"] ]}
    (Some code) (msg +:+ newline).

(** [m] does not look at the rest of the body: from a state with another
    rest it ends the same way, in the same state but for that rest. *)
Definition agnostic {A} (m : M Func A) : Prop :=
  forall st x, m (withUnread x st) = ((m st).1, withUnread x (m st).2).

(** [m] ends the same way whatever follows the first bytes [a] of the
    body, and leaves what follows unread. *)
Definition stopsAfter {A} (a : string) (m : M Func A) (st : exchange Func) : Prop :=
  exists o st1, forall x, m (withUnread (a +:+ x) st) = (o, withUnread x st1).

(** Two states that differ in the lines of the logger at most. *)
Definition sameButLog (st st' : exchange Func) : Prop :=
  w st = w st' /\ unread st = unread st' /\ bodyClosed st = bodyClosed st' /\
  withoutLogger (trace st) = withoutLogger (trace st').

(** The ways [confirmSub] ends: the events it adds, and whether it has
    closed the body of the request. *)
Inductive confirmEnds (rt : Runtime) (td : topicDescription Func) :
    outcome unit -> list (event Func) -> bool -> Prop :=
  | ConfirmNoData ps :
      prints ps -> confirmEnds rt td (Returned tt) ps false
  | ConfirmPanics msg ps :
      prints ps -> confirmEnds rt td (Panicked msg) ps false
  | ConfirmGetFails url ps ps' :
      prints ps -> prints ps' -> http_Get_fails rt url = true ->
      confirmEnds rt td (Returned tt) (ps ++ HttpGet url :: ps') false
  | ConfirmDone url ps ps' :
      prints ps -> prints ps' -> http_Get_fails rt url = false ->
      confirmEnds rt td (Returned tt)
        (ps ++ HttpGet url :: ps' ++ [Go (Callback td) None]) true.

(** The ways [processMessage] ends. *)
Inductive processEnds (td : topicDescription Func) :
    outcome unit -> list (event Func) -> Prop :=
  | ProcessNoData ps :
      prints ps -> processEnds td (Returned tt) ps
  | ProcessPanics msg ps :
      prints ps -> processEnds td (Panicked msg) ps
  | ProcessDone msg ps :
      prints ps ->
      processEnds td (Returned tt) (ps ++ [Go (Callback td) (Some msg)]).

(** The writer when a flow is over: the answer 200 has been written
    after a flow that returned, nothing after one that panicked. *)
Definition afterFlow (o : outcome unit) : ResponseWriter :=
  match o with
  | Returned _ => response StatusOK "ok"
  | Panicked _ => newResponseWriter
  end.

(** The ways [ServeHTTP] ends on a request [r] as it arrives: how the
    call ends, and the state it leaves. *)
Inductive serveEnds (rt : Runtime) (s : Server Func) (r : Request) :
    outcome unit -> exchange Func -> Prop :=
  | ServedNotFound :
      topics_lookup s (URL_Path r) = None ->
      serveEnds rt s r (Returned tt)
        (mkExchange (response StatusNotFound "not found") (Body r) false [])
  | ServedBadRequest td :
      topics_lookup s (URL_Path r) = Some td ->
      TopicARN td <> Header_Get (Header_ r) "x-amz-sns-topic-arn" ->
      serveEnds rt s r (Returned tt)
        (mkExchange (response StatusBadRequest "bad request") (Body r) false [])
  | ServedNotImplemented td :
      topics_lookup s (URL_Path r) = Some td ->
      TopicARN td = Header_Get (Header_ r) "x-amz-sns-topic-arn" ->
      Header_Get (Header_ r) "x-amz-sns-message-type" <> "SubscriptionConfirmation" ->
      Header_Get (Header_ r) "x-amz-sns-message-type" <> "Notification" ->
      serveEnds rt s r (Returned tt)
        (mkExchange (response StatusNotImplemented "not implemented")
           (Body r) false [])
  | ServedConfirmation td o added closed u :
      topics_lookup s (URL_Path r) = Some td ->
      TopicARN td = Header_Get (Header_ r) "x-amz-sns-topic-arn" ->
      Header_Get (Header_ r) "x-amz-sns-message-type" = "SubscriptionConfirmation" ->
      confirmEnds rt td o added closed ->
      serveEnds rt s r o (mkExchange (afterFlow o) u closed added)
  | ServedNotification td o added u :
      topics_lookup s (URL_Path r) = Some td ->
      TopicARN td = Header_Get (Header_ r) "x-amz-sns-topic-arn" ->
      Header_Get (Header_ r) "x-amz-sns-message-type" = "Notification" ->
      processEnds td o added ->
      serveEnds rt s r o (mkExchange (afterFlow o) u false added).

End WithCallbacks.

End Behaviour.

(** ** More deliveries to compute with *)

Module MoreExamples.
Import Digits GoTime GoFmt GoHttp Gosns Examples.

(** A delivery type the handler does not know. *)
Definition unknownType : Request :=
  delivery "/sns" (TopicARN topic) "UnsubscribeConfirmation"
    [("Content-Length", "75")] notificationText.

Definition negativeLength : Request :=
  delivery "/sns" (TopicARN topic) "Notification"
    [("Content-Length", "-1")] notificationText.

(** A confirmation whose [Content-Length] is [maxAlloc + 1]. *)
Definition aboveMaxAlloc : Request :=
  delivery "/sns" (TopicARN topic) "SubscriptionConfirmation"
    [("Content-Length", "281474976710657")] confirmationText.

Definition nullNotification : Request :=
  delivery "/sns" (TopicARN topic) "Notification"
    [("Content-Length", "4")] "null".


Definition rawConfirmation : Request :=
  delivery "/sns" (TopicARN topic) "SubscriptionConfirmation"
    [("Content-Length", "5"); ("X-Amz-Sns-Rawdelivery", "true");
     ("X-Amz-Sns-Message-Id", "abc")] "hello".

(** A notification whose [Subject] is the JSON [true]. *)
Definition boolSubjectText : string :=
  "{" +:+ member "Message" "hello" +:+ "," +:+ member "MessageId" "abc"
      +:+ "," +:+ member "Timestamp" "2024-03-09T07:05:03.12Z"
      +:+ "," +:+ quote +:+ "Subject" +:+ quote +:+ ":true}".

Definition boolSubjectData : gmap string value :=
  <["Subject" := VBool true]> notificationData.

(** [Examples.decoder], and [json.Unmarshal] on [boolSubjectText]. *)
Definition decoder' (text : string) : unmarshaled :=
  if decide (text = boolSubjectText) then Unmarshaled (Some boolSubjectData)
  else decoder text.

Definition online' : Runtime := mkRuntime decoder' (fun _ => false) noon.

Definition boolSubject : Request :=
  delivery "/sns" (TopicARN topic) "Notification"
    [("Content-Length", "90")] boolSubjectText.

(** [notification] with bytes after the [Content-Length] of its body. *)
Definition notificationHeaders : Header :=
  headers [("X-Amz-Sns-Topic-Arn", TopicARN topic);
           ("X-Amz-Sns-Message-Type", "Notification");
           ("Content-Length", "75")].

(** A server with nothing registered, and one with a logger. *)
Definition fresh : Server nat := mkServer None None.
Definition logging : Server nat := mkServer (Some tt) (Some {[ "/sns" := topic ]}).

End MoreExamples.

(** * Properties *)

Local Arguments String.append !_ _ : simpl nomatch.

Module DigitsFacts.
Import Digits.

Lemma app_assoc (a b c : string) : (a +:+ b) +:+ c = a +:+ (b +:+ c).
Proof. induction a as [|x a IH]; simpl; [reflexivity | now rewrite IH]. Qed.

Lemma app_nil_l (a : string) : "" +:+ a = a.
Proof. reflexivity. Qed.

Lemma app_cons1 (c : ascii) (a : string) : String c "" +:+ a = String c a.
Proof. reflexivity. Qed.

Lemma app_nil_r (a : string) : a +:+ "" = a.
Proof. induction a as [|x a IH]; simpl; [reflexivity | now rewrite IH]. Qed.

Lemma length_app (a b : string) :
  String.length (a +:+ b) = (String.length a + String.length b)%nat.
Proof. induction a as [|x a IH]; simpl; [reflexivity | now rewrite IH]. Qed.

Lemma substring_all (a : string) : String.substring 0 (String.length a) a = a.
Proof. induction a as [|x a IH]; simpl; [reflexivity | now rewrite IH]. Qed.

Lemma substring_prefix (a b : string) (n : nat) :
  String.length a = n -> String.substring 0 n (a +:+ b) = a.
Proof.
  intros <-. induction a as [|x a IH]; simpl.
  - now destruct b.
  - now rewrite IH.
Qed.

Lemma substring_suffix (a b : string) (n m : nat) :
  String.length a = n ->
  String.substring n m (a +:+ b) = String.substring 0 m b.
Proof. intros <-. induction a as [|x a IH]; simpl; [reflexivity | exact IH]. Qed.

Lemma substring_whole (a : string) (n : nat) :
  String.length a = n -> String.substring 0 n a = a.
Proof. intros <-. apply substring_all. Qed.

Lemma length_zeros (k : nat) : String.length (zeros k) = k.
Proof. induction k as [|k IH]; simpl; [reflexivity | now rewrite IH]. Qed.

Lemma zeros_app (n : nat) : zeros n +:+ "0" = zeros (S n).
Proof. induction n as [|n IH]; simpl; [reflexivity | now rewrite IH]. Qed.

Lemma digit_cases (d : Z) : 0 <= d < 10 ->
  d = 0 \/ d = 1 \/ d = 2 \/ d = 3 \/ d = 4 \/ d = 5 \/ d = 6 \/ d = 7 \/ d = 8 \/ d = 9.
Proof. lia. Qed.

Lemma isDigit_digitChar (d : Z) : 0 <= d < 10 -> isDigit (digitChar d) = true.
Proof.
  intros H. destruct (digit_cases d H) as [->|[->|[->|[->|[->|[->|[->|[->|[->| ->]]]]]]]]];
    reflexivity.
Qed.

Lemma digitVal_digitChar (d : Z) : 0 <= d < 10 -> digitVal (digitChar d) = d.
Proof.
  intros H. destruct (digit_cases d H) as [->|[->|[->|[->|[->|[->|[->|[->|[->| ->]]]]]]]]];
    reflexivity.
Qed.

Lemma mod10_range (u : Z) : 0 <= u mod 10 < 10.
Proof. apply Z.mod_pos_bound; lia. Qed.

Lemma digitVal_range (c : ascii) : isDigit c = true -> 0 <= digitVal c < 10.
Proof.
  unfold isDigit, digitVal. intros H. apply andb_true_iff in H as [H1 H2].
  apply Z.leb_le in H1, H2. lia.
Qed.

Lemma fixed_zero (w : nat) : fixed w 0 = zeros w.
Proof.
  induction w as [|w IH]; [reflexivity|].
  cbn [fixed]. change (0 / 10) with 0. rewrite IH. apply zeros_app.
Qed.

Lemma length_fixed (w : nat) (u : Z) : String.length (fixed w u) = w.
Proof.
  revert u. induction w as [|w IH]; intros u; [reflexivity|].
  cbn [fixed]. rewrite length_app, IH. simpl. lia.
Qed.

Lemma allDigits_app (a b : string) :
  allDigits (a +:+ b) = allDigits a && allDigits b.
Proof.
  induction a as [|x a IH]; simpl; [reflexivity|].
  rewrite IH. now rewrite andb_assoc.
Qed.

Lemma allDigits_fixed (w : nat) (u : Z) : allDigits (fixed w u) = true.
Proof.
  revert u. induction w as [|w IH]; intros u; [reflexivity|].
  cbn [fixed]. rewrite allDigits_app, IH. simpl.
  rewrite isDigit_digitChar by apply mod10_range. reflexivity.
Qed.

Lemma valueFrom_app (a b : string) (x : Z) :
  valueFrom x (a +:+ b) = valueFrom (valueFrom x a) b.
Proof. revert x. induction a as [|c a IH]; intros x; simpl; [reflexivity | apply IH]. Qed.

Lemma valueFrom_fixed (w : nat) (u x : Z) :
  0 <= u < 10 ^ Z.of_nat w -> valueFrom x (fixed w u) = x * 10 ^ Z.of_nat w + u.
Proof.
  revert u x. induction w as [|w IH]; intros u x Hu.
  - simpl in *. lia.
  - cbn [fixed]. rewrite valueFrom_app.
    rewrite Nat2Z.inj_succ, Z.pow_succ_r in * by lia.
    rewrite IH by (split; [apply Z.div_pos; lia | apply Z.div_lt_upper_bound; lia]).
    simpl. rewrite digitVal_digitChar by apply mod10_range.
    pose proof (Z.div_mod u 10). lia.
Qed.

Lemma valueFrom_zeros (k : nat) (x : Z) :
  valueFrom x (zeros k) = x * 10 ^ Z.of_nat k.
Proof.
  revert x. induction k as [|k IH]; intros x.
  - simpl. lia.
  - cbn [zeros valueFrom]. rewrite IH. change (digitVal "0") with 0.
    rewrite Nat2Z.inj_succ, Z.pow_succ_r by lia. lia.
Qed.

Lemma valueFrom_mono (s : string) (x : Z) :
  allDigits s = true -> 0 <= x -> x <= valueFrom x s.
Proof.
  revert x. induction s as [|c s IH]; intros x Hs Hx; simpl in *; [lia|].
  apply andb_true_iff in Hs as [Hc Hs]. apply digitVal_range in Hc.
  specialize (IH (x * 10 + digitVal c) Hs). lia.
Qed.

Lemma pad_itoa (f w : nat) (u : Z) :
  (1 <= w <= f)%nat -> 0 <= u < 10 ^ Z.of_nat w ->
  zeros (w - String.length (itoa f u)) +:+ itoa f u = fixed w u.
Proof.
  revert w u. induction f as [|f IH]; intros w u Hw Hu; [lia|].
  destruct w as [|w]; [lia|].
  cbn [itoa fixed].
  rewrite Nat2Z.inj_succ, Z.pow_succ_r in Hu by lia.
  destruct (Z.eqb_spec (u / 10) 0) as [E|E].
  - rewrite E, fixed_zero. simpl. now rewrite Nat.sub_0_r.
  - assert (Hq : 0 < u / 10).
    { assert (0 <= u / 10) by (apply Z.div_pos; lia). lia. }
    assert (Hw' : (1 <= w)%nat).
    { destruct w; [|lia]. simpl in Hu.
      assert (u / 10 = 0) by (apply Z.div_small; lia). lia. }
    rewrite length_app. simpl String.length.
    replace (S w - (String.length (itoa f (u / 10)) + 1))%nat
      with (w - String.length (itoa f (u / 10)))%nat by lia.
    rewrite <- app_assoc.
    rewrite IH; [reflexivity | lia |].
    split; [lia | apply Z.div_lt_upper_bound; lia].
Qed.

Lemma appendInt_fixed (w : nat) (u : Z) :
  (1 <= w <= 20)%nat -> 0 <= u < 10 ^ Z.of_nat w -> appendInt u w = fixed w u.
Proof.
  intros Hw Hu. unfold appendInt.
  destruct (Z.ltb_spec u 0) as [?|_]; [lia|].
  rewrite Z.abs_eq by lia. rewrite app_nil_l.
  now apply pad_itoa.
Qed.

End DigitsFacts.

Module GoTimeFacts.
Import Digits GoTime DigitsFacts.

Lemma leadingInt_digits (s rest : string) (x : Z) :
  allDigits s = true -> 0 <= x -> valueFrom x s <= 2 ^ 63 / 10 ->
  noDigitAhead rest ->
  leadingInt x (s +:+ rest) = Some (valueFrom x s, rest).
Proof.
  revert x. induction s as [|c s IH]; intros x Hs Hx Hv Hrest.
  - simpl. destruct rest as [|c rest]; simpl in *; [reflexivity|].
    now rewrite Hrest.
  - simpl in Hs. apply andb_true_iff in Hs as [Hc Hs].
    pose proof (digitVal_range c Hc) as Hd.
    simpl in Hv.
    pose proof (valueFrom_mono s (x * 10 + digitVal c) Hs ltac:(lia)) as Hm.
    assert (2 ^ 63 / 10 < 2 ^ 63) by (vm_compute; reflexivity).
    simpl. rewrite Hc.
    destruct (Z.gtb_spec x (2 ^ 63 / 10)) as [?|_]; [lia|].
    destruct (Z.gtb_spec (x * 10 + digitVal c) (2 ^ 63)) as [?|_]; [lia|].
    apply IH; auto; lia.
Qed.

Lemma digit_not_sign (c : ascii) :
  isDigit c = true -> Ascii.eqb c "-" = false /\ Ascii.eqb c "+" = false.
Proof.
  intros H. split.
  - destruct (Ascii.eqb_spec c "-") as [->|]; [discriminate | reflexivity].
  - destruct (Ascii.eqb_spec c "+") as [->|]; [discriminate | reflexivity].
Qed.

Lemma atoi_digits (s : string) :
  s <> "" -> allDigits s = true -> valueFrom 0 s <= 2 ^ 63 / 10 ->
  atoi s = Some (valueFrom 0 s).
Proof.
  intros Hne Hs Hv. destruct s as [|c s]; [congruence|].
  unfold atoi.
  pose proof Hs as Hs'. simpl in Hs'. apply andb_true_iff in Hs' as [Hc _].
  destruct (digit_not_sign c Hc) as [-> ->].
  pose proof (leadingInt_digits (String c s) "" 0 Hs ltac:(lia) Hv I) as L.
  rewrite app_nil_r in L. rewrite L.
  unfold toInt.
  assert (2 ^ 63 / 10 < 2 ^ 63) by (vm_compute; reflexivity).
  destruct (Z.geb_spec (valueFrom 0 (String c s)) (2 ^ 63)) as [?|_]; [lia|].
  reflexivity.
Qed.

Lemma atoi_fixed (w : nat) (u : Z) :
  (1 <= w <= 9)%nat -> 0 <= u < 10 ^ Z.of_nat w -> atoi (fixed w u) = Some u.
Proof.
  intros Hw Hu.
  assert (Hv : valueFrom 0 (fixed w u) = u) by (rewrite valueFrom_fixed; lia).
  rewrite atoi_digits, Hv; [reflexivity | | apply allDigits_fixed |].
  - intros E. pose proof (length_fixed w u) as L. rewrite E in L. simpl in L. lia.
  - rewrite Hv.
    assert (10 ^ Z.of_nat w <= 10 ^ 9) by (apply Z.pow_le_mono_r; lia).
    assert (10 ^ 9 <= 2 ^ 63 / 10) by (vm_compute; discriminate).
    lia.
Qed.

Lemma spanDigits_app (s rest : string) :
  allDigits s = true -> noDigitAhead rest -> spanDigits (s +:+ rest) = (s, rest).
Proof.
  intros Hs Hrest. induction s as [|c s IH]; simpl.
  - destruct rest as [|c rest]; simpl in *; [reflexivity | now rewrite Hrest].
  - simpl in Hs. apply andb_true_iff in Hs as [Hc Hs].
    now rewrite Hc, IH.
Qed.

Lemma fixed2 (n : Z) :
  fixed 2 n = String (digitChar ((n / 10) mod 10)) (String (digitChar (n mod 10)) "").
Proof. reflexivity. Qed.

Lemma fixed4 (n : Z) :
  fixed 4 n =
  String (digitChar ((((n / 10) / 10) / 10) mod 10))
    (String (digitChar (((n / 10) / 10) mod 10))
       (String (digitChar ((n / 10) mod 10)) (String (digitChar (n mod 10)) ""))).
Proof. reflexivity. Qed.

Lemma getnum_fixed2 (n : Z) (rest : string) (b : bool) :
  0 <= n < 100 -> getnum (fixed 2 n +:+ rest) b = Some (n, rest).
Proof.
  intros Hn. rewrite fixed2. simpl. unfold getnum.
  rewrite !isDigit_digitChar by apply mod10_range.
  rewrite !digitVal_digitChar by apply mod10_range.
  do 2 f_equal.
  rewrite (Z.mod_small (n / 10)).
  - pose proof (Z.div_mod n 10). lia.
  - split; [apply Z.div_pos; lia | apply Z.div_lt_upper_bound; lia].
Qed.

(** *** Trailing zeros *)

Lemma trimZeros_split (s : string) :
  exists k, s = trimZeros s +:+ zeros k.
Proof.
  induction s as [|c s [k IH]].
  - exists 0%nat. reflexivity.
  - simpl. destruct (trimZeros s) as [|c' t] eqn:E.
    + destruct (Ascii.eqb_spec c "0") as [->|_].
      * exists (S k). simpl in *. now rewrite <- IH.
      * exists k. simpl in *. now rewrite <- IH.
    + exists k. simpl. f_equal. exact IH.
Qed.

Lemma trimZeros_dot (s : string) :
  trimZeros (String "." s) =
  match trimZeros s with
  | EmptyString => String "." EmptyString
  | t => String "." t
  end.
Proof. simpl. now destruct (trimZeros s). Qed.

Lemma valueFrom_bound (s : string) (x : Z) :
  allDigits s = true -> 0 <= x ->
  valueFrom x s < (x + 1) * 10 ^ Z.of_nat (String.length s).
Proof.
  revert x. induction s as [|c s IH]; intros x Hs Hx.
  - simpl. lia.
  - simpl in Hs. apply andb_true_iff in Hs as [Hc Hs].
    apply digitVal_range in Hc.
    cbn [valueFrom String.length]. rewrite Nat2Z.inj_succ, Z.pow_succ_r by lia.
    specialize (IH (x * 10 + digitVal c) Hs ltac:(lia)).
    assert (0 < 10 ^ Z.of_nat (String.length s)) by (apply Z.pow_pos_nonneg; lia).
    nia.
Qed.

(** *** What [Format] writes for the fraction of a second *)

Lemma appendNano_nonzero (ns : Z) :
  0 < ns < 1000000000 ->
  exists t k,
    appendNano ns 9 = String "." t /\ t <> "" /\ allDigits t = true /\
    (String.length t + k = 9)%nat /\ valueFrom 0 t * 10 ^ Z.of_nat k = ns.
Proof.
  intros Hns. unfold appendNano.
  destruct (Z.eqb_spec ns 0) as [?|_]; [lia|].
  cbn [Nat.eqb orb].
  rewrite appendInt_fixed by (simpl; lia).
  rewrite (substring_whole _ _ (length_fixed 9 ns)).
  rewrite trimZeros_dot.
  destruct (trimZeros_split (fixed 9 ns)) as [k Hk].
  assert (Hd : allDigits (trimZeros (fixed 9 ns)) = true).
  { pose proof (allDigits_fixed 9 ns) as A. rewrite Hk, allDigits_app in A.
    now apply andb_true_iff in A as [A _]. }
  assert (Hv : valueFrom 0 (trimZeros (fixed 9 ns)) * 10 ^ Z.of_nat k = ns).
  { pose proof (valueFrom_fixed 9 ns 0 ltac:(simpl; lia)) as V.
    rewrite Hk, valueFrom_app, valueFrom_zeros in V. lia. }
  assert (Hl : (String.length (trimZeros (fixed 9 ns)) + k = 9)%nat).
  { pose proof (length_fixed 9 ns) as L. rewrite Hk, length_app in L.
    now rewrite length_zeros in L. }
  destruct (trimZeros (fixed 9 ns)) as [|c t] eqn:E.
  - simpl in Hv. lia.
  - exists (String c t), k. split; [reflexivity|]. split; [discriminate|]. auto.
Qed.

(** *** One element of the layout at a time *)

Section Steps.
Variables (l : list chunk) (rest : string) (f : Time).

Lemma parse_literal (c : ascii) :
  Ascii.eqb c " " = false ->
  parseChunks (literal (String c "") :: l) (String c rest) f = parseChunks l rest f.
Proof.
  intros Hc. cbn [parseChunks]. unfold skip. cbn [String.length skipLoop].
  now rewrite Hc, Ascii.eqb_refl.
Qed.

Lemma parse_year (y : Z) :
  0 <= y <= 9999 ->
  parseChunks (stdLongYear :: l) (fixed 4 y +:+ rest) f =
  parseChunks l rest
    (mkTime y (Month f) (Day f) (Hour f) (Minute f) (Second f) (Nanosecond f)).
Proof.
  intros Hy. cbn [parseChunks].
  assert (Hlen : String.length (fixed 4 y +:+ rest) = (4 + String.length rest)%nat)
    by now rewrite length_app, length_fixed.
  assert (Hhead : isDigitAt (fixed 4 y +:+ rest) 0 = true).
  { rewrite fixed4. unfold isDigitAt. simpl. apply isDigit_digitChar, mod10_range. }
  rewrite Hlen, Hhead.
  replace (4 + String.length rest <? 4)%nat with false
    by (symmetry; apply Nat.ltb_ge; lia).
  cbn [orb negb].
  rewrite (substring_prefix _ _ _ (length_fixed 4 y)).
  rewrite atoi_fixed by (simpl; lia).
  rewrite (substring_suffix _ _ _ _ (length_fixed 4 y)).
  replace (4 + String.length rest - 4)%nat with (String.length rest) by lia.
  now rewrite substring_all.
Qed.

Lemma parse_month (m : Z) :
  1 <= m <= 12 ->
  parseChunks (stdZeroMonth :: l) (fixed 2 m +:+ rest) f =
  parseChunks l rest
    (mkTime (Year f) m (Day f) (Hour f) (Minute f) (Second f) (Nanosecond f)).
Proof.
  intros Hm. cbn [parseChunks]. rewrite getnum_fixed2 by lia.
  destruct (Z.leb_spec m 0) as [?|_]; [lia|].
  destruct (Z.ltb_spec 12 m) as [?|_]; [lia|]. reflexivity.
Qed.

Lemma parse_day (d : Z) :
  0 <= d < 100 ->
  parseChunks (stdZeroDay :: l) (fixed 2 d +:+ rest) f =
  parseChunks l rest
    (mkTime (Year f) (Month f) d (Hour f) (Minute f) (Second f) (Nanosecond f)).
Proof. intros Hd. cbn [parseChunks]. now rewrite getnum_fixed2 by lia. Qed.

Lemma parse_hour (h : Z) :
  0 <= h < 24 ->
  parseChunks (stdHour :: l) (fixed 2 h +:+ rest) f =
  parseChunks l rest
    (mkTime (Year f) (Month f) (Day f) h (Minute f) (Second f) (Nanosecond f)).
Proof.
  intros Hh. cbn [parseChunks]. rewrite getnum_fixed2 by lia.
  destruct (Z.ltb_spec h 0) as [?|_]; [lia|].
  destruct (Z.leb_spec 24 h) as [?|_]; [lia|]. reflexivity.
Qed.

Lemma parse_minute (m : Z) :
  0 <= m < 60 ->
  parseChunks (stdZeroMinute :: l) (fixed 2 m +:+ rest) f =
  parseChunks l rest
    (mkTime (Year f) (Month f) (Day f) (Hour f) m (Second f) (Nanosecond f)).
Proof.
  intros Hm. cbn [parseChunks]. rewrite getnum_fixed2 by lia.
  destruct (Z.ltb_spec m 0) as [?|_]; [lia|].
  destruct (Z.leb_spec 60 m) as [?|_]; [lia|]. reflexivity.
Qed.

Lemma parse_second (sec : Z) :
  0 <= sec < 60 -> isFracSecond (nextStd l) = true ->
  parseChunks (stdZeroSecond :: l) (fixed 2 sec +:+ rest) f =
  parseChunks l rest
    (mkTime (Year f) (Month f) (Day f) (Hour f) (Minute f) sec (Nanosecond f)).
Proof.
  intros Hs Hl. cbn [parseChunks]. rewrite getnum_fixed2 by lia.
  destruct (Z.ltb_spec sec 0) as [?|_]; [lia|].
  destruct (Z.leb_spec 60 sec) as [?|_]; [lia|].
  cbn [orb]. rewrite Hl. cbn [negb]. now rewrite andb_false_r.
Qed.

Lemma parse_fraction (n k : nat) (t : string) :
  t <> "" -> allDigits t = true -> (String.length t + k = 9)%nat ->
  noDigitAhead rest ->
  parseChunks (stdFracSecond9 n :: l) (String "." (t +:+ rest)) f =
  parseChunks l rest
    (mkTime (Year f) (Month f) (Day f) (Hour f) (Minute f) (Second f)
       (valueFrom 0 t * 10 ^ Z.of_nat k)).
Proof.
  intros Hne Hd Hlen Hrest. cbn [parseChunks].
  assert (Hstart : startsFraction (String "." (t +:+ rest)) = true).
  { destruct t as [|c t]; [congruence|]. simpl in Hd |- *.
    now apply andb_true_iff in Hd as [-> _]. }
  rewrite Hstart.
  cbn [String.length]. rewrite Nat.sub_succ, Nat.sub_0_r.
  cbn [String.substring]. rewrite substring_all.
  rewrite spanDigits_app by assumption. cbn [fst].
  unfold parseNanoseconds. cbn [commaOrPeriod Ascii.eqb orb].
  change (commaOrPeriod ".") with true. cbv iota.
  replace (Nat.min (S (String.length t)) 10) with (S (String.length t)) by lia.
  rewrite Nat.sub_succ, Nat.sub_0_r.
  cbn [String.substring].
  rewrite (substring_prefix t rest _ eq_refl).
  pose proof (valueFrom_bound t 0 Hd ltac:(lia)) as Hb.
  assert (Hpow : 10 ^ Z.of_nat (String.length t) <= 10 ^ 9)
    by (apply Z.pow_le_mono_r; lia).
  assert (H63 : 10 ^ 9 <= 2 ^ 63 / 10) by (vm_compute; discriminate).
  rewrite atoi_digits by (auto; lia).
  pose proof (valueFrom_mono t 0 Hd ltac:(lia)) as Hpos.
  destruct (Z.ltb_spec (valueFrom 0 t) 0) as [?|_]; [lia|].
  replace (10 - S (String.length t))%nat with k by lia.
  rewrite (substring_suffix t rest _ _ eq_refl).
  replace (S (String.length (t +:+ rest)) - S (String.length t))%nat
    with (String.length rest) by (rewrite length_app; lia).
  now rewrite substring_all.
Qed.

Lemma parse_no_fraction (n : nat) :
  startsFraction rest = false ->
  parseChunks (stdFracSecond9 n :: l) rest f = parseChunks l rest f.
Proof. intros H. cbn [parseChunks]. now rewrite H. Qed.

End Steps.

Lemma daysIn_le_31 (m y : Z) : 1 <= m <= 12 -> daysIn m y <= 31.
Proof.
  intros Hm. unfold daysIn.
  destruct ((m =? 2) && isLeap y); [lia|].
  assert (m = 1 \/ m = 2 \/ m = 3 \/ m = 4 \/ m = 5 \/ m = 6 \/ m = 7 \/ m = 8 \/
          m = 9 \/ m = 10 \/ m = 11 \/ m = 12) as C by lia.
  destruct C as [->|[->|[->|[->|[->|[->|[->|[->|[->|[->|[->| ->]]]]]]]]]]];
    vm_compute; discriminate.
Qed.

(** The layout as it is cut is the text of the constant. *)
Lemma amzLayout_text : layoutText amzLayout = amzTimeFormat.
Proof. reflexivity. Qed.

Lemma Parse_Format_in_range (t : Time) :
  validTime t -> 0 <= Year t <= 9999 -> Parse (Format t) = Some t.
Proof.
  destruct t as [y mo d h mi s ns]. unfold validTime. cbn [Year Month Day Hour Minute Second Nanosecond].
  intros (Hmo & Hd & Hh & Hmi & Hs & Hns) Hy.
  pose proof (daysIn_le_31 mo y Hmo) as H31.
  unfold Parse, Format, formatLayout, amzLayout.
  cbn [map formatChunk String.concat Year Month Day Hour Minute Second Nanosecond].
  rewrite (appendInt_fixed 4 y) by (simpl; lia).
  rewrite !(appendInt_fixed 2) by (simpl; lia).
  rewrite !app_nil_l, !app_cons1.
  rewrite parse_year by lia.
  rewrite parse_literal by reflexivity.
  rewrite parse_month by assumption.
  rewrite parse_literal by reflexivity.
  rewrite parse_day by lia.
  rewrite parse_literal by reflexivity.
  rewrite parse_hour by lia.
  rewrite parse_literal by reflexivity.
  rewrite parse_minute by lia.
  rewrite parse_literal by reflexivity.
  rewrite parse_second by (auto; lia).
  cbn [noFields Year Month Day Hour Minute Second Nanosecond].
  assert (Hfin : forall n, n = ns ->
            parseChunks [] "" (mkTime y mo d h mi s n) = Some (mkTime y mo d h mi s ns)).
  { intros n ->. cbn [parseChunks]. unfold finishParse.
    cbn [Year Month Day Hour Minute Second Nanosecond].
    destruct (Z.ltb_spec mo 0) as [?|_]; [lia|].
    destruct (Z.ltb_spec d 0) as [?|_]; [lia|].
    destruct (Z.ltb_spec d 1) as [?|_]; [lia|].
    destruct (Z.gtb_spec d (daysIn mo y)) as [?|_]; [lia|]. reflexivity. }
  destruct (Z.eq_dec ns 0) as [->|Hnz].
  - change (appendNano 0 9) with "". rewrite app_nil_l.
    rewrite parse_no_fraction by reflexivity.
    change ("Z" : string) with (String "Z" "").
    rewrite parse_literal by reflexivity. now apply Hfin.
  - destruct (appendNano_nonzero ns ltac:(lia)) as (t & k & -> & Hne & Hdig & Hlen & Hval).
    change (String "." t +:+ "Z") with (String "." (t +:+ "Z")).
    rewrite (parse_fraction _ _ _ 9 k t) by (auto; reflexivity).
    change ("Z" : string) with (String "Z" "").
    rewrite parse_literal by reflexivity. now apply Hfin.
Qed.

Lemma parsedOrZero_Format (t : Time) :
  validTime t -> 0 <= Year t <= 9999 -> parsedOrZero (Format t) = t.
Proof.
  intros Hv Hy. unfold parsedOrZero. now rewrite Parse_Format_in_range.
Qed.

(** C6, amended.  An instant whose year in UTC is between 0 and 9999,
    written with the fixed layout and parsed with it again, is the same
    instant, to the nanosecond. *)
Theorem Parse_Format (t : Time) :
  validTime t -> 0 <= Year t <= 9999 -> Parse (Format t) = Some t.
Proof. exact (Parse_Format_in_range t). Qed.

End GoTimeFacts.


Module GoFmtFacts.
Import GoFmt.

(** The blanks [Sscanf] skips are runes, not bytes: a no-break space
    (U+00A0, the bytes C2 A0) and an ideographic space (U+3000, the bytes
    E3 80 80) before the digits are skipped as a space is; the byte C2
    alone is no rune and no blank; a newline is an error; and the largest
    [int] scans, the number after it does not. *)
Example Sscanf_d_blanks :
  Sscanf_d (String "194" (String "160" "75")) = Some 75 /\
  Sscanf_d (String "227" (String "128" (String "128" " 75"))) = Some 75 /\
  Sscanf_d (String "194" "75") = None /\
  Sscanf_d (String "010" "75") = None /\
  Sscanf_d " +75 bytes" = Some 75 /\
  Sscanf_d "9223372036854775807" = Some (2 ^ 63 - 1) /\
  Sscanf_d "9223372036854775808" = None.
Proof. repeat split; vm_compute; reflexivity. Qed.

End GoFmtFacts.

Module GosnsFacts.
Import Digits GoTime GoFmt GoHttp Gosns.

Section Facts.
Context {Func : Type}.
Variable rt : Runtime.

Implicit Types (s : Server Func) (td : topicDescription Func) (r : Request)
  (st : exchange Func).

Ltac solve_quiet :=
  unfold quiet, gets, callbacks; cbn; rewrite ?omap_app; cbn;
  rewrite ?app_nil_r; auto.

Lemma simpleResponse_run (code : Z) (msg : string) st :
  wStatus (w st) = None -> wBody (w st) = "" ->
  exists st',
    simpleResponse code msg st = (Returned tt, st') /\
    responded st' code msg /\ trace st' = trace st.
Proof.
  intros Hs Hb. eexists. split; [reflexivity|].
  unfold responded. cbn. unfold WriteHeader. cbn. rewrite Hs. cbn.
  unfold WriteHeader. cbn. rewrite Hb. auto.
Qed.


Lemma makeslice_ok (n : Z) st :
  0 <= n -> n <= maxAlloc \/ n <= Z.of_nat (String.length (unread st)) ->
  makeslice n st = (Returned tt, st).
Proof.
  intros H0 H. unfold makeslice.
  destruct (Z.ltb_spec n 0); [lia|].
  destruct (Z.ltb_spec maxAlloc n); [|reflexivity].
  destruct (Z.ltb_spec (Z.of_nat (String.length (unread st))) n);
    [lia | reflexivity].
Qed.

Lemma makeslice_panics (n : Z) st :
  n < 0 \/ (maxAlloc < n /\ Z.of_nat (String.length (unread st)) < n) ->
  makeslice n st = (Panicked "runtime error: makeslice: len out of range", st).
Proof.
  intros H. unfold makeslice.
  destruct (Z.ltb_spec n 0); [reflexivity|].
  destruct (Z.ltb_spec maxAlloc n); [|lia].
  destruct (Z.ltb_spec (Z.of_nat (String.length (unread st))) n);
    [reflexivity | lia].
Qed.

Lemma makeslice_cases (n : Z) st :
  (makeslice n st =
     (Panicked "runtime error: makeslice: len out of range", st) /\
   (n < 0 \/ (maxAlloc < n /\ Z.of_nat (String.length (unread st)) < n)))
  \/
  (makeslice n st = (Returned tt, st) /\ 0 <= n /\
   (n <= maxAlloc \/ n <= Z.of_nat (String.length (unread st)))).
Proof.
  destruct (Z.lt_ge_cases n 0);
    [left; split; [apply makeslice_panics|]; lia|].
  destruct (Z.le_gt_cases n maxAlloc);
    [right; split; [apply makeslice_ok|]; lia|].
  destruct (Z.le_gt_cases n (Z.of_nat (String.length (unread st))));
    [right; split; [apply makeslice_ok|]; lia|].
  left; split; [apply makeslice_panics|]; lia.
Qed.


Lemma extractJsonBody_negative r st (n : Z) :
  Sscanf_d (Header_Get (Header_ r) "Content-Length") = Some n -> n < 0 ->
  extractJsonBody rt r st =
  (Panicked "runtime error: makeslice: len out of range", st).
Proof.
  intros H Hn. unfold extractJsonBody. rewrite H.
  unfold bind. now rewrite makeslice_panics by lia.
Qed.

Lemma extractJsonBody_above_maxAlloc r st (n : Z) :
  Sscanf_d (Header_Get (Header_ r) "Content-Length") = Some n ->
  maxAlloc < n -> Z.of_nat (String.length (unread st)) < n ->
  extractJsonBody rt r st =
  (Panicked "runtime error: makeslice: len out of range", st).
Proof.
  intros H Hm Hn. unfold extractJsonBody. rewrite H.
  unfold bind. now rewrite makeslice_panics by lia.
Qed.

Lemma extractJsonBody_raw r st (n : Z) :
  Sscanf_d (Header_Get (Header_ r) "Content-Length") = Some n ->
  0 <= n <= Z.of_nat (String.length (unread st)) ->
  Header_Get (Header_ r) "x-amz-sns-rawdelivery" = "true" ->
  exists st',
    extractJsonBody rt r st =
      (Returned (Some
         (<["Timestamp" := VString (Format (time_Now rt))]>
          (<["MessageId" :=
               VString (Header_Get (Header_ r) "x-amz-sns-message-id")]>
           (<["Message" := VString (String.substring 0 (Z.to_nat n) (unread st))]>
            (<["Subject" := VString ""]> ∅))))), st')
    /\ quiet st st'.
Proof.
  intros H Hn Hraw. unfold extractJsonBody. rewrite H.
  unfold bind. rewrite makeslice_ok by lia. cbv beta iota. unfold ReadFull.
  destruct (Nat.leb_spec (Z.to_nat n) (String.length (unread st))) as [_|?]; [|lia].
  destruct (decide _) as [_|?]; [|contradiction].
  eexists. split; [reflexivity|]. solve_quiet.
Qed.

Lemma extractJsonBody_json r st (n : Z) :
  Sscanf_d (Header_Get (Header_ r) "Content-Length") = Some n ->
  0 <= n <= Z.of_nat (String.length (unread st)) ->
  Header_Get (Header_ r) "x-amz-sns-rawdelivery" <> "true" ->
  exists st',
    extractJsonBody rt r st =
      (Returned
         match json_Unmarshal rt (String.substring 0 (Z.to_nat n) (unread st)) with
         | UnmarshalError => None
         | Unmarshaled data => data
         end, st')
    /\ quiet st st'.
Proof.
  intros H Hn Hraw. unfold extractJsonBody. rewrite H.
  unfold bind. rewrite makeslice_ok by lia. cbv beta iota. unfold ReadFull.
  destruct (Nat.leb_spec (Z.to_nat n) (String.length (unread st))) as [_|?]; [|lia].
  destruct (decide _) as [?|_]; [contradiction|].
  destruct (json_Unmarshal rt _); eexists; (split; [reflexivity|]); solve_quiet.
Qed.


(** The response at the end of a flow that left the writer alone. *)
Lemma respond_after (code : Z) (msg : string) st0 st :
  wStatus (w st0) = None -> wBody (w st0) = "" -> w st = w st0 ->
  exists st',
    simpleResponse code msg st = (Returned tt, st') /\
    responded st' code msg /\ trace st' = trace st.
Proof.
  intros Hs Hb Hw. apply simpleResponse_run; now rewrite Hw.
Qed.



Lemma structuredBody_some r st n data :
  unread st = Body r -> structuredBody rt r n data ->
  exists st', extractJsonBody rt r st = (Returned (Some data), st') /\ quiet st st'.
Proof.
  intros Hu (H & Hn & Hraw & Hj).
  destruct (extractJsonBody_json r st n H ltac:(now rewrite Hu) Hraw)
    as (st' & E & Q).
  rewrite Hu, Hj in E. eauto.
Qed.

(** Dispatch of an accepted request. *)
Lemma ServeHTTP_confirmation s r td st :
  accepted s r td "SubscriptionConfirmation" ->
  ServeHTTP rt s r st =
  bind (confirmSub rt s td r) (fun _ => simpleResponse StatusOK "ok") st.
Proof.
  intros (Hl & Ht & Hty). unfold ServeHTTP. rewrite Hl, Ht, Hty.
  destruct (decide _) as [_|?]; [|congruence].
  destruct (decide _) as [_|?]; [|congruence]. reflexivity.
Qed.

Lemma ServeHTTP_notification s r td st :
  accepted s r td "Notification" ->
  ServeHTTP rt s r st =
  bind (processMessage rt s td r) (fun _ => simpleResponse StatusOK "ok") st.
Proof.
  intros (Hl & Ht & Hty). unfold ServeHTTP. rewrite Hl, Ht, Hty.
  destruct (decide _) as [_|?]; [|congruence].
  destruct (decide _) as [?|_]; [discriminate|].
  destruct (decide _) as [_|?]; [|congruence]. reflexivity.
Qed.

Lemma bind_returned {A B} (m : M Func A) (k : A -> M Func B) st a st1 :
  m st = (Returned a, st1) -> bind m k st = k a st1.
Proof. intros E. unfold bind. now rewrite E. Qed.

Lemma bind_panicked {A B} (m : M Func A) (k : A -> M Func B) st msg st1 :
  m st = (Panicked msg, st1) -> bind m k st = (Panicked msg, st1).
Proof. intros E. unfold bind. now rewrite E. Qed.

Ltac solve_trace :=
  unfold gets, callbacks in *; cbn; rewrite ?omap_app; cbn;
  rewrite ?app_nil_r; auto.

Lemma confirmSub_run s r td st st1 data url :
  extractJsonBody rt r st = (Returned (Some data), st1) ->
  data !! "SubscribeURL" = Some (VString url) ->
  exists st2,
    confirmSub rt s td r st = (Returned tt, st2) /\ w st2 = w st1 /\
    gets (trace st2) = gets (trace st1) ++ [url] /\
    callbacks (trace st2) =
      callbacks (trace st1) ++
      (if http_Get_fails rt url then [] else [(Callback td, None)]).
Proof.
  intros E Hurl. unfold confirmSub. rewrite (bind_returned _ _ _ _ _ E).
  unfold index. rewrite Hurl. cbn.
  destruct (http_Get_fails rt url); [|destruct (Logger s)];
    (eexists; split; [reflexivity|]); repeat split; solve_trace.
Qed.

Lemma flow_none {A} (k : gmap string value -> M Func A) (a : A) r st st1 :
  extractJsonBody rt r st = (Returned None, st1) ->
  bind (extractJsonBody rt r)
    (fun data => match data with None => ret a | Some d => k d end) st =
  (Returned a, st1).
Proof. intros E. now rewrite (bind_returned _ _ _ _ _ E). Qed.

(** C2, amended.  A confirmation for a registered path and its channel
    whose JSON body holds the string [SubscribeURL] sends exactly one GET,
    to that URL, and is answered with 200 and the line "ok" whether the GET
    fails or not; the callback is started exactly once, with nil, when the
    GET succeeds, and not at all when it fails. *)
Theorem confirmation_get_then_callback s r td n data url :
  accepted s r td "SubscriptionConfirmation" ->
  structuredBody rt r n data ->
  data !! "SubscribeURL" = Some (VString url) ->
  exists st,
    serve rt s r = (Returned tt, st) /\
    gets (trace st) = [url] /\
    callbacks (trace st) =
      (if http_Get_fails rt url then [] else [(Callback td, None)]) /\
    responded st StatusOK "ok".
Proof.
  intros Hacc Hbody Hurl. unfold serve.
  rewrite (ServeHTTP_confirmation s r td _ Hacc).
  destruct (structuredBody_some r (start r) n data eq_refl Hbody)
    as (st1 & E & Hw & Hg & Hc).
  destruct (confirmSub_run s r td _ _ _ _ E Hurl) as (st2 & E2 & Hw2 & Hg2 & Hc2).
  rewrite (bind_returned _ _ _ _ _ E2).
  destruct (respond_after StatusOK "ok" (start r) st2) as (st3 & E3 & Hr & Htr);
    [reflexivity | reflexivity | congruence |].
  exists st3. rewrite Htr, Hg2, Hc2, Hg, Hc. auto.
Qed.


Lemma index_Some (data : gmap string value) (key : string) (v : value) :
  data !! key = Some v -> index data key = v.
Proof. intros H. unfold index. now rewrite H. Qed.

Lemma processMessage_run s r td st st1 data message messageId timeStr subject :
  extractJsonBody rt r st = (Returned (Some data), st1) ->
  data !! "Message" = Some (VString message) ->
  data !! "MessageId" = Some (VString messageId) ->
  data !! "Timestamp" = Some (VString timeStr) ->
  subjectField data subject ->
  exists st2,
    processMessage rt s td r st = (Returned tt, st2) /\ w st2 = w st1 /\
    gets (trace st2) = gets (trace st1) /\
    callbacks (trace st2) =
      callbacks (trace st1) ++
      [(Callback td,
        Some (Message.mk subject message messageId (parsedOrZero timeStr)))].
Proof.
  intros E Hm Hid Hts Hsub. unfold processMessage.
  rewrite (bind_returned _ _ _ _ _ E).
  rewrite (index_Some _ _ _ Hm), (index_Some _ _ _ Hid), (index_Some _ _ _ Hts).
  destruct Hsub as [[Hs ->]|Hs]; rewrite Hs; cbn;
    destruct (Logger s); (eexists; split; [reflexivity|]); repeat split; solve_trace.
Qed.

(** C3.  A notification for a registered path and its channel whose
    well-formed JSON body holds the strings [Message], [MessageId] and
    [Timestamp] is answered with 200 and the line "ok", and starts the
    callback exactly once, with a message whose [Subject], [Message] and
    [MessageId] are those of the body; the subject is empty when the body
    has none. *)
Theorem notification_delivers s r td n data message messageId timeStr subject :
  accepted s r td "Notification" ->
  structuredBody rt r n data ->
  data !! "Message" = Some (VString message) ->
  data !! "MessageId" = Some (VString messageId) ->
  data !! "Timestamp" = Some (VString timeStr) ->
  subjectField data subject ->
  exists st,
    serve rt s r = (Returned tt, st) /\
    responded st StatusOK "ok" /\
    callbacks (trace st) =
      [(Callback td,
        Some (Message.mk subject message messageId (parsedOrZero timeStr)))].
Proof.
  intros Hacc Hbody Hm Hid Hts Hsub. unfold serve.
  rewrite (ServeHTTP_notification s r td _ Hacc).
  destruct (structuredBody_some r (start r) n data eq_refl Hbody)
    as (st1 & E & Hw & Hg & Hc).
  destruct (processMessage_run s r td _ _ _ _ _ _ _ E Hm Hid Hts Hsub)
    as (st2 & E2 & Hw2 & Hg2 & Hc2).
  rewrite (bind_returned _ _ _ _ _ E2).
  destruct (respond_after StatusOK "ok" (start r) st2) as (st3 & E3 & Hr & Htr);
    [reflexivity | reflexivity | congruence |].
  exists st3. rewrite Htr, Hc2, Hc. auto.
Qed.


(** C8.  A request whose path has no registration is answered with 404
    and the line "not found", whatever its headers and body, and starts
    no callback. *)
Theorem unregistered_path_404 s r :
  topics_lookup s (URL_Path r) = None ->
  exists st,
    serve rt s r = (Returned tt, st) /\
    responded st StatusNotFound "not found" /\ callbacks (trace st) = [].
Proof.
  intros Hl. unfold serve, ServeHTTP. rewrite Hl.
  destruct (respond_after StatusNotFound "not found" (start r) (start r))
    as (st3 & E3 & Hr & Htr); [reflexivity..|].
  exists st3. rewrite Htr. auto.
Qed.

(** *** The flows leave the response writer alone *)

Lemma keeps_w_ret {A} (a : A) : @keeps_w Func _ (ret a : M Func A).
Proof. intros st o st' [= _ <-]. reflexivity. Qed.

Lemma keeps_w_panic {A} (msg : string) : @keeps_w Func _ (panic msg : M Func A).
Proof. intros st o st' [= _ <-]. reflexivity. Qed.

Lemma keeps_w_emit (e : event Func) : @keeps_w Func _ (emit e).
Proof. intros st o st' [= _ <-]. reflexivity. Qed.

Lemma keeps_w_closeBody : @keeps_w Func _ (closeBody : M Func unit).
Proof. intros st o st' [= _ <-]. reflexivity. Qed.

Lemma keeps_w_makeslice (n : Z) : @keeps_w Func _ (makeslice n : M Func unit).
Proof.
  intros st o st'. unfold makeslice.
  destruct (_ || _); intros [= _ <-]; reflexivity.
Qed.

Lemma keeps_w_ReadFull (n : Z) : @keeps_w Func _ (ReadFull n : M Func (option string)).
Proof.
  intros st o st'. unfold ReadFull.
  destruct (_ <=? _)%nat; intros [= _ <-]; reflexivity.
Qed.

Lemma keeps_w_assertString (x : value) : @keeps_w Func _ (assertString x : M Func string).
Proof. destruct x; simpl; auto using keeps_w_ret, keeps_w_panic. Qed.

Lemma keeps_w_bind {A B} (m : M Func A) (k : A -> M Func B) :
  keeps_w m -> (forall a, keeps_w (k a)) -> keeps_w (bind m k).
Proof.
  intros Hm Hk st o st'. unfold bind.
  destruct (m st) as [[a|msg] st1] eqn:E.
  - intros E'. rewrite (Hk a _ _ _ E'). eapply Hm, E.
  - intros [= _ <-]. eapply Hm, E.
Qed.

Create HintDb keeps.
#[local] Hint Resolve keeps_w_ret keeps_w_panic keeps_w_emit keeps_w_closeBody
  keeps_w_makeslice keeps_w_ReadFull keeps_w_assertString : keeps.

Ltac keeps :=
  repeat first
    [ apply keeps_w_bind; [|intros ?]
    | match goal with |- keeps_w (match ?x with _ => _ end) => destruct x end
    | match goal with |- keeps_w (if ?x then _ else _) => destruct x end
    | solve [auto with keeps] ].

Lemma keeps_w_extractJsonBody r : @keeps_w Func _ (extractJsonBody rt r).
Proof. unfold extractJsonBody. keeps. Qed.

Lemma keeps_w_confirmSub s td r : @keeps_w Func _ (confirmSub rt s td r).
Proof.
  unfold confirmSub. apply keeps_w_bind; [apply keeps_w_extractJsonBody|].
  intros [data|]; keeps.
Qed.

Lemma keeps_w_processMessage s td r : @keeps_w Func _ (processMessage rt s td r).
Proof.
  unfold processMessage. apply keeps_w_bind; [apply keeps_w_extractJsonBody|].
  intros [data|]; keeps.
Qed.

Lemma flow_then_ok {A} (m : M Func A) r o st :
  keeps_w m ->
  bind m (fun _ => simpleResponse StatusOK "ok") (start r) = (o, st) ->
  wStatus (w st) = None \/ wStatus (w st) = Some StatusOK.
Proof.
  intros Hk. unfold bind. destruct (m (start r)) as [[a|msg] st1] eqn:E.
  - destruct (respond_after StatusOK "ok" (start r) st1) as (st3 & E3 & [Hr _] & _);
      [reflexivity | reflexivity | eapply Hk, E |].
    rewrite E3. intros [= _ <-]. auto.
  - intros [= _ <-]. left. now rewrite (Hk _ _ _ E).
Qed.

(** C9.  A request to a registered path whose channel header differs
    from the registration's channel id is answered with 400 and the line
    "bad request", and starts no callback; the two are compared as they
    are, byte for byte: when they are equal the answer is never 400. *)
Theorem channel_mismatch_400 s r td :
  topics_lookup s (URL_Path r) = Some td ->
  (Header_Get (Header_ r) "x-amz-sns-topic-arn" <> TopicARN td ->
   exists st,
     serve rt s r = (Returned tt, st) /\
     responded st StatusBadRequest "bad request" /\ callbacks (trace st) = [])
  /\
  (Header_Get (Header_ r) "x-amz-sns-topic-arn" = TopicARN td ->
   forall o st, serve rt s r = (o, st) -> wStatus (w st) <> Some StatusBadRequest).
Proof.
  intros Hl. split.
  - intros Hne. unfold serve, ServeHTTP. rewrite Hl.
    destruct (decide _) as [?|_]; [congruence|].
    destruct (respond_after StatusBadRequest "bad request" (start r) (start r))
      as (st3 & E3 & Hr & Htr); [reflexivity..|].
    exists st3. rewrite Htr. auto.
  - intros Heq o st. unfold serve, ServeHTTP. rewrite Hl.
    destruct (decide _) as [_|?]; [|congruence].
    destruct (decide _) as [_|_]; [|destruct (decide _) as [_|_]].
    + intros E. apply flow_then_ok in E; [|apply keeps_w_confirmSub].
      destruct E as [-> | ->]; discriminate.
    + intros E. apply flow_then_ok in E; [|apply keeps_w_processMessage].
      destruct E as [-> | ->]; discriminate.
    + destruct (respond_after StatusNotImplemented "not implemented" (start r) (start r))
        as (st3 & E3 & [Hr _] & Htr); [reflexivity..|].
      rewrite E3. intros [= _ <-]. rewrite Hr. discriminate.
Qed.


(** *** Raw deliveries *)

(** C5, amended.  For a raw delivery whose [Content-Length] scans as an
    integer [n >= 0] that the body can supply, the extraction returns the
    field set with an empty [Subject], the first [n] bytes of the body as
    [Message] (the whole body when [n] is its length), the message-id
    header as [MessageId] and the current UTC time in the fixed layout as
    [Timestamp]; the JSON decoder has no part in it. *)
Theorem raw_delivery_fields r st n :
  Header_Get (Header_ r) "x-amz-sns-rawdelivery" = "true" ->
  Sscanf_d (Header_Get (Header_ r) "Content-Length") = Some n ->
  0 <= n <= Z.of_nat (String.length (unread st)) ->
  (exists st',
     extractJsonBody rt r st =
       (Returned (Some
          (<["Timestamp" := VString (Format (time_Now rt))]>
           (<["MessageId" :=
                VString (Header_Get (Header_ r) "x-amz-sns-message-id")]>
            (<["Message" := VString (String.substring 0 (Z.to_nat n) (unread st))]>
             (<["Subject" := VString ""]> ∅))))), st'))
  /\ (n = Z.of_nat (String.length (unread st)) ->
      String.substring 0 (Z.to_nat n) (unread st) = unread st)
  /\ (forall decode,
        extractJsonBody (mkRuntime decode (http_Get_fails rt) (time_Now rt)) r st =
        extractJsonBody rt r st).
Proof.
  intros Hraw H Hn. split; [|split].
  - destruct (extractJsonBody_raw r st n H Hn Hraw) as (st' & E & _). eauto.
  - intros ->. rewrite Nat2Z.id. apply DigitsFacts.substring_all.
  - intros decode. unfold extractJsonBody. rewrite H.
    unfold bind. destruct (makeslice n st) as [[[]|] st0]; [|reflexivity].
    destruct (ReadFull n st0) as [[[bytes|]|] st1]; try reflexivity.
    destruct (decide _) as [_|?]; [reflexivity | contradiction].
Qed.




(** X16.  A raw notification, from the request to the callback: it is
    answered with 200 and starts the callback once, with an empty
    subject, the first [Content-Length] bytes of the body as message, the
    id of the header, and as time stamp what [time.Parse] makes of the
    formatted time of the call: that time itself when its year is one of
    four digits. *)
Lemma raw_notification_delivers s r td n :
  accepted s r td "Notification" ->
  Header_Get (Header_ r) "x-amz-sns-rawdelivery" = "true" ->
  Sscanf_d (Header_Get (Header_ r) "Content-Length") = Some n ->
  0 <= n <= Z.of_nat (String.length (Body r)) ->
  (exists st,
     serve rt s r = (Returned tt, st) /\
     responded st StatusOK "ok" /\
     callbacks (trace st) =
       [(Callback td,
         Some (Message.mk "" (String.substring 0 (Z.to_nat n) (Body r))
                 (Header_Get (Header_ r) "x-amz-sns-message-id")
                 (parsedOrZero (Format (time_Now rt)))))])
  /\
  (validTime (time_Now rt) -> 0 <= Year (time_Now rt) <= 9999 ->
   parsedOrZero (Format (time_Now rt)) = time_Now rt).
Proof.
  intros Hacc Hraw H Hn.
  split; [|intros Hv Hy; now apply GoTimeFacts.parsedOrZero_Format].
  unfold serve.
  rewrite (ServeHTTP_notification s r td _ Hacc).
  destruct (extractJsonBody_raw r (start r) n H Hn Hraw) as (st1 & E & Hw & Hg & Hc).
  destruct (processMessage_run s r td _ _ _
              (String.substring 0 (Z.to_nat n) (Body r))
              (Header_Get (Header_ r) "x-amz-sns-message-id")
              (Format (time_Now rt)) "" E)
    as (st2 & E2 & Hw2 & Hg2 & Hc2).
  - now simplify_map_eq.
  - now simplify_map_eq.
  - now simplify_map_eq.
  - right. unfold index. now simplify_map_eq.
  - rewrite (bind_returned _ _ _ _ _ E2).
    destruct (respond_after StatusOK "ok" (start r) st2) as (st3 & E3 & Hr & Htr);
      [reflexivity | reflexivity | congruence |].
    exists st3. rewrite Htr, Hc2, Hc. auto.
Qed.

(** *** A required field that is missing or no string *)

(** X17.  A structured confirmation whose decoded body has no string
    under [SubscribeURL] panics: no GET is sent, no callback is started
    and nothing is written. *)
Lemma confirmation_panics s r td n data :
  accepted s r td "SubscriptionConfirmation" ->
  structuredBody rt r n data ->
  (forall url, index data "SubscribeURL" <> VString url) ->
  exists msg st,
    serve rt s r = (Panicked msg, st) /\ wStatus (w st) = None /\
    wBody (w st) = "" /\ gets (trace st) = [] /\ callbacks (trace st) = [].
Proof.
  intros Hacc Hbody Hno. unfold serve.
  rewrite (ServeHTTP_confirmation s r td _ Hacc).
  destruct (structuredBody_some r (start r) n data eq_refl Hbody)
    as (st1 & E & Hw & Hg & Hc).
  assert (exists msg, confirmSub rt s td r (start r) = (Panicked msg, st1))
    as (msg & Ep).
  { unfold confirmSub. rewrite (bind_returned _ _ (start r) (Some data) st1 E).
    destruct (index data "SubscribeURL") as [| | |url| |] eqn:Hv;
      try (eexists; reflexivity).
    now destruct (Hno url). }
  rewrite (bind_panicked _ _ _ _ _ Ep).
  exists msg, st1. rewrite Hw, Hg, Hc. now repeat split.
Qed.

(** X18.  A structured notification whose decoded body has no string
    under [Timestamp], [Message] or [MessageId] panics: no callback is
    started and nothing is written. *)
Lemma notification_panics s r td n data :
  accepted s r td "Notification" ->
  structuredBody rt r n data ->
  (forall x, index data "Timestamp" <> VString x) \/
  (forall x, index data "Message" <> VString x) \/
  (forall x, index data "MessageId" <> VString x) ->
  exists msg st,
    serve rt s r = (Panicked msg, st) /\ wStatus (w st) = None /\
    callbacks (trace st) = [].
Proof.
  intros Hacc Hbody Hno. unfold serve.
  rewrite (ServeHTTP_notification s r td _ Hacc).
  destruct (structuredBody_some r (start r) n data eq_refl Hbody)
    as (st1 & E & Hw & Hg & Hc).
  assert (exists msg, processMessage rt s td r (start r) = (Panicked msg, st1))
    as (msg & Ep).
  { unfold processMessage. rewrite (bind_returned _ _ (start r) (Some data) st1 E).
    destruct (index data "Timestamp") as [| | |ts| |] eqn:Hts;
      try (eexists; reflexivity).
    destruct (index data "Message") as [| | |m| |] eqn:Hm;
      try (eexists; reflexivity).
    destruct (index data "MessageId") as [| | |mid| |] eqn:Hmid;
      try (eexists; reflexivity).
    destruct Hno as [Hno|[Hno|Hno]];
      [destruct (Hno ts) | destruct (Hno m) | destruct (Hno mid)]; reflexivity. }
  rewrite (bind_panicked _ _ _ _ _ Ep).
  exists msg, st1. rewrite Hw, Hc. now repeat split.
Qed.

(** X19.  A notification with its three required strings whose [Subject]
    is there, is not null and is no string panics: no callback is started
    and nothing is written. *)
Lemma notification_subject_panics s r td n data message messageId timeStr :
  accepted s r td "Notification" ->
  structuredBody rt r n data ->
  data !! "Message" = Some (VString message) ->
  data !! "MessageId" = Some (VString messageId) ->
  data !! "Timestamp" = Some (VString timeStr) ->
  index data "Subject" <> VNil ->
  (forall x, index data "Subject" <> VString x) ->
  exists msg st,
    serve rt s r = (Panicked msg, st) /\ wStatus (w st) = None /\
    callbacks (trace st) = [].
Proof.
  intros Hacc Hbody Hm Hid Hts Hnil Hno. unfold serve.
  rewrite (ServeHTTP_notification s r td _ Hacc).
  destruct (structuredBody_some r (start r) n data eq_refl Hbody)
    as (st1 & E & Hw & Hg & Hc).
  assert (exists msg, processMessage rt s td r (start r) = (Panicked msg, st1))
    as (msg & Ep).
  { unfold processMessage. rewrite (bind_returned _ _ (start r) (Some data) st1 E).
    rewrite (index_Some _ _ _ Hm), (index_Some _ _ _ Hid), (index_Some _ _ _ Hts).
    destruct (index data "Subject") as [| | |x| |] eqn:Hs;
      try (eexists; reflexivity).
    - now destruct Hnil.
    - now destruct (Hno x). }
  rewrite (bind_panicked _ _ _ _ _ Ep).
  exists msg, st1. rewrite Hw, Hc. now repeat split.
Qed.

(** *** Registration *)

Lemma routingKey_slash (endpoint : string) :
  exists rest, routingKey endpoint = String "/" rest.
Proof.
  destruct endpoint as [|c rest]; [now exists ""|].
  unfold routingKey.
  destruct (Ascii.eqb_spec c "/") as [->|Hc]; [now exists rest|].
  exists (String c rest).
  destruct c as [[] [] [] [] [] [] [] []]; try reflexivity. now destruct Hc.
Qed.

Lemma routingKey_unchanged (rest : string) :
  routingKey (String "/" rest) = String "/" rest.
Proof. reflexivity. Qed.

Lemma AddTopic_registers (s : Server Func) (arn endpoint : string) (cb : Func) :
  endpoint <> "" ->
  exists s' log,
    AddTopic s arn endpoint cb = Returned (s', log) /\
    topics_lookup s' (routingKey endpoint) = Some (mkTopicDescription arn cb) /\
    (forall p, p <> routingKey endpoint -> topics_lookup s' p = topics_lookup s p) /\
    Logger s' = Logger s.
Proof.
  intros Hne. destruct endpoint as [|c rest]; [congruence|].
  unfold AddTopic.
  assert (Hkey : (if negb (Ascii.eqb c "/") then "/" +:+ String c rest else String c rest)
                 = routingKey (String c rest)).
  { unfold routingKey. destruct (Ascii.eqb_spec c "/") as [->|Hc]; [reflexivity|].
    destruct c as [[] [] [] [] [] [] [] []]; try reflexivity. now destruct Hc. }
  rewrite Hkey. do 2 eexists. split; [reflexivity|].
  unfold topics_lookup. cbn [topics Logger].
  destruct (topics s) as [m|]; repeat split.
  - apply lookup_insert_eq.
  - intros p Hp. now apply lookup_insert_ne.
  - apply lookup_singleton_eq.
  - intros p Hp. now apply lookup_singleton_ne.
Qed.

Lemma AddTopic_last_wins (s : Server Func) (arn1 arn2 endpoint : string)
    (cb1 cb2 : Func) :
  endpoint <> "" ->
  exists s1 log1 s2 log2,
    AddTopic s arn1 endpoint cb1 = Returned (s1, log1) /\
    AddTopic s1 arn2 endpoint cb2 = Returned (s2, log2) /\
    topics_lookup s2 (routingKey endpoint) = Some (mkTopicDescription arn2 cb2) /\
    (forall p, p <> routingKey endpoint -> topics_lookup s2 p = topics_lookup s p).
Proof.
  intros Hne.
  destruct (AddTopic_registers s arn1 endpoint cb1 Hne) as (s1 & log1 & E1 & _ & O1 & _).
  destruct (AddTopic_registers s1 arn2 endpoint cb2 Hne) as (s2 & log2 & E2 & L2 & O2 & _).
  exists s1, log1, s2, log2. repeat split; auto.
  intros p Hp. rewrite O2, O1; auto.
Qed.

End Facts.
End GosnsFacts.

(** ** The specification's properties at concrete deliveries *)

Module Settled.
Import Digits GoTime GoFmt GoHttp Gosns Examples GoTimeFacts GosnsFacts.

(** C1, as the code has it.  The specification lets a delivery whose
    decoded body lacks a required field end silently, with the response
    200 and no callback.  The handler does not: for a confirmation and for
    a notification whose body is the empty object, the type assertion on
    the missing field panics, no callback is started, and nothing has been
    written to the response writer when the handler is left. *)
Theorem required_field_missing_panics :
  (exists st,
     serve online server emptyConfirmation =
       (Panicked "interface conversion: interface {} is nil, not string", st) /\
     wStatus (w st) = None /\ wBody (w st) = "" /\ callbacks (trace st) = [])
  /\
  (exists st,
     serve online server emptyNotification =
       (Panicked "interface conversion: interface {} is nil, not string", st) /\
     wStatus (w st) = None /\ wBody (w st) = "" /\ callbacks (trace st) = []).
Proof.
  split; eexists; (split; [vm_compute; reflexivity|]); repeat split.
Qed.

(** C7, as the code has it.  The specification has every call of
    [AddTopic] store the path with a leading slash.  For the empty path
    the call panics instead, on [endpoint[:1]], and registers nothing.
    (For a non-empty path the key is [routingKey endpoint] and the last
    registration wins: [AddTopic_registers], [AddTopic_last_wins].) *)
Theorem AddTopic_empty_endpoint_panics {Func : Type} (s : Server Func)
    (topicARN : string) (callback : Func) :
  AddTopic s topicARN "" callback =
  Panicked "runtime error: slice bounds out of range [:1] with length 0".
Proof. reflexivity. Qed.

(** C4, as the code has it.  The specification answers a notification
    whose body is shorter than [Content-Length] says with 200 and starts
    no callback.  The handler allocates [Content-Length] bytes before it
    reads the body: for a notification cut off after its first byte whose
    [Content-Length] is the largest [int], the body is shorter than the
    header says and the allocation panics, with nothing read, written or
    started when the handler is left. *)
Theorem truncated_body_allocation_panics :
  accepted server truncatedHuge topic "Notification" /\
  extractionFails online truncatedHuge /\
  serve online server truncatedHuge =
    (Panicked "runtime error: makeslice: len out of range", start truncatedHuge).
Proof.
  split; [|split].
  - repeat split; vm_compute; reflexivity.
  - apply BodyShorter with 9223372036854775807; vm_compute; reflexivity.
  - vm_compute. reflexivity.
Qed.

(** C10, as the code has it.  The specification has the extraction of a
    raw delivery return no data, and no callback started, when the body
    does not supply the bytes [Content-Length] asks for.  The handler
    allocates that many bytes before it reads the body: for a raw
    notification whose [Content-Length] is [-1], and for one whose
    [Content-Length] is the largest [int], the allocation panics; the
    extraction returns nothing, and the handler is left with nothing
    read, written or started. *)
Theorem raw_delivery_allocation_panics :
  (Header_Get (Header_ rawNegative) "x-amz-sns-rawdelivery" = "true" /\
   Sscanf_d (Header_Get (Header_ rawNegative) "Content-Length") = Some (-1) /\
   extractJsonBody online rawNegative (start (Func := nat) rawNegative) =
     (Panicked "runtime error: makeslice: len out of range", start rawNegative) /\
   serve online server rawNegative =
     (Panicked "runtime error: makeslice: len out of range", start rawNegative))
  /\
  (Header_Get (Header_ rawHuge) "x-amz-sns-rawdelivery" = "true" /\
   Sscanf_d (Header_Get (Header_ rawHuge) "Content-Length") =
     Some 9223372036854775807 /\
   String.length (Body rawHuge) = 5%nat /\
   extractJsonBody online rawHuge (start (Func := nat) rawHuge) =
     (Panicked "runtime error: makeslice: len out of range", start rawHuge) /\
   serve online server rawHuge =
     (Panicked "runtime error: makeslice: len out of range", start rawHuge)).
Proof. repeat split; vm_compute; reflexivity. Qed.

Lemma confirmation_callback_counterexample :
  ~ (forall (rt : Runtime) (s : Server nat) (r : Request) (td : topicDescription nat)
            (n : Z) (data : gmap string value) (url : string),
       accepted s r td "SubscriptionConfirmation" ->
       structuredBody rt r n data ->
       data !! "SubscribeURL" = Some (VString url) ->
       exists st,
         serve rt s r = (Returned tt, st) /\
         gets (trace st) = [url] /\
         callbacks (trace st) = [(Callback td, None)] /\
         responded st StatusOK "ok").
Proof.
  intros claim.
  destruct (claim offline server confirmation topic 46 confirmationData
              "http://example.test/confirm") as (st & E & _ & Hc & _).
  - repeat split; vm_compute; reflexivity.
  - repeat split; try (vm_compute; reflexivity); try (vm_compute; discriminate).
  - vm_compute. reflexivity.
  - vm_compute in E. injection E as <-. vm_compute in Hc. discriminate.
Qed.

Lemma confirmation_get_then_callback_witness :
  exists st,
    serve online server confirmation = (Returned tt, st) /\
    gets (trace st) = ["http://example.test/confirm"] /\
    callbacks (trace st) = [(1%nat, None)] /\
    responded st StatusOK "ok".
Proof.
  apply (confirmation_get_then_callback online server confirmation topic 46
           confirmationData "http://example.test/confirm").
  - repeat split; vm_compute; reflexivity.
  - repeat split; try (vm_compute; reflexivity); try (vm_compute; discriminate).
  - vm_compute. reflexivity.
Defined.

Lemma notification_delivers_witness :
  exists st,
    serve online server notification = (Returned tt, st) /\
    responded st StatusOK "ok" /\
    callbacks (trace st) =
      [(1%nat, Some (Message.mk "" "hello" "abc" (mkTime 2024 3 9 7 5 3 120000000)))].
Proof.
  apply (notification_delivers online server notification topic 75
           notificationData "hello" "abc" "2024-03-09T07:05:03.12Z" "").
  - repeat split; vm_compute; reflexivity.
  - repeat split; try (vm_compute; reflexivity); try (vm_compute; discriminate).
  - vm_compute. reflexivity.
  - vm_compute. reflexivity.
  - vm_compute. reflexivity.
  - left. split; vm_compute; reflexivity.
Defined.

Lemma unregistered_path_404_witness :
  exists st,
    serve online server unknownPath = (Returned tt, st) /\
    responded st StatusNotFound "not found" /\ callbacks (trace st) = [].
Proof.
  apply (unregistered_path_404 online server unknownPath).
  vm_compute. reflexivity.
Defined.

Lemma channel_mismatch_400_witness :
  exists st,
    serve online server wrongChannel = (Returned tt, st) /\
    responded st StatusBadRequest "bad request" /\ callbacks (trace st) = [].
Proof.
  apply (channel_mismatch_400 online server wrongChannel topic).
  - vm_compute. reflexivity.
  - vm_compute. discriminate.
Defined.

Lemma raw_delivery_fields_witness :
  exists st',
    extractJsonBody online rawHello (start (Func := nat) rawHello) =
      (Returned (Some
         (<["Timestamp" := VString "2024-03-09T12:00:00Z"]>
          (<["MessageId" := VString "abc"]>
           (<["Message" := VString "hello"]>
            (<["Subject" := VString ""]> ∅))))), st').
Proof.
  apply (raw_delivery_fields online rawHello (start rawHello) 5).
  - vm_compute. reflexivity.
  - vm_compute. reflexivity.
  - vm_compute. split; discriminate.
Defined.

Lemma raw_delivery_counterexample :
  ~ (forall (rt : Runtime) (r : Request),
       Header_Get (Header_ r) "x-amz-sns-rawdelivery" = "true" ->
       exists st',
         extractJsonBody rt r (start (Func := nat) r) =
           (Returned (Some
              (<["Timestamp" := VString (Format (time_Now rt))]>
               (<["MessageId" :=
                    VString (Header_Get (Header_ r) "x-amz-sns-message-id")]>
                (<["Message" := VString (Body r)]>
                 (<["Subject" := VString ""]> ∅))))), st')).
Proof.
  intros claim.
  destruct (claim online rawChunked) as (st' & E).
  - vm_compute. reflexivity.
  - vm_compute in E. discriminate.
Qed.

Lemma Parse_Format_witness : Parse (Format someInstant) = Some someInstant.
Proof.
  apply (Parse_Format someInstant).
  - unfold validTime. vm_compute. repeat split; discriminate.
  - vm_compute. split; discriminate.
Defined.

Lemma Parse_Format_counterexample :
  ~ (forall t : Time, validTime t -> Parse (Format t) = Some t).
Proof.
  intros claim.
  assert (H : Parse (Format year10000) = Some year10000).
  { apply claim. unfold validTime. vm_compute. repeat split; discriminate. }
  vm_compute in H. discriminate.
Qed.

(** What [processMessage] makes of a time stamp [Parse] refuses. *)
Example year10000_parsed :
  Format year10000 = "10000-01-01T00:00:00Z" /\
  parsedOrZero (Format year10000) = zeroTime.
Proof. split; vm_compute; reflexivity. Qed.

End Settled.

(** * More of the handler *)

Module FlowFacts.
Import Digits GoTime GoFmt GoHttp Gosns Behaviour GosnsFacts.

Section Facts.
Context {Func : Type}.
Variable rt : Runtime.

Implicit Types (s : Server Func) (td : topicDescription Func) (r : Request)
  (st : exchange Func).

Lemma prints_app (a b : list (event Func)) : prints a -> prints b -> prints (a ++ b).
Proof. unfold prints. rewrite forallb_app. now intros -> ->. Qed.

Lemma extractJsonBody_effects r st o st1 :
  extractJsonBody rt r st = (o, st1) ->
  w st1 = w st /\ bodyClosed st1 = bodyClosed st /\
  exists ps, trace st1 = trace st ++ ps /\ prints ps.
Proof.
  unfold extractJsonBody.
  destruct (Sscanf_d _) as [n|].
  - unfold bind.
    destruct (makeslice_cases n st) as [[-> _]|[-> _]]; cbv beta iota.
    + intros [= _ <-]. repeat split. exists []. now rewrite List.app_nil_r.
    + unfold ReadFull. destruct (_ <=? _)%nat.
      * destruct (decide _).
        -- intros [= _ <-]. repeat split. exists []. now rewrite List.app_nil_r.
        -- destruct (json_Unmarshal rt _); intros [= _ <-]; repeat split; cbn.
           ++ now eexists.
           ++ exists []. now rewrite List.app_nil_r.
      * intros [= _ <-]. repeat split. cbn. now eexists.
  - intros [= _ <-]. repeat split. cbn. now eexists.
Qed.

Lemma confirmSub_ends s td r st o st' :
  confirmSub rt s td r st = (o, st') ->
  w st' = w st /\
  exists added closed,
    trace st' = trace st ++ added /\
    bodyClosed st' = bodyClosed st || closed /\
    confirmEnds rt td o added closed.
Proof.
  unfold confirmSub. unfold bind at 1.
  destruct (extractJsonBody rt r st) as [[[data|]|msg] st1] eqn:E;
    destruct (extractJsonBody_effects _ _ _ _ E) as (Hw & Hb & ps & Ht & Hps).
  - destruct (index data "SubscribeURL") as [| | |url| |];
      try (intros [= <- <-]; split; [assumption|]; exists ps, false;
           rewrite orb_false_r; repeat split; auto; now constructor).
    cbn. destruct (http_Get_fails rt url) eqn:Hf.
    + intros [= <- <-]. split; [assumption|].
      exists (ps ++ HttpGet url :: [Printf "error confirming subscription: %v"]), false.
      cbn. rewrite Ht, orb_false_r, <- !List.app_assoc. repeat split; auto.
      now constructor.
    + destruct (Logger s); intros [= <- <-]; (split; [assumption|]); cbn.
      * eexists (ps ++ HttpGet url :: [LoggerPrint _] ++ [Go (Callback td) None]), true.
        rewrite Ht, orb_true_r, <- !List.app_assoc. repeat split; auto.
        now constructor.
      * eexists (ps ++ HttpGet url :: [] ++ [Go (Callback td) None]), true.
        rewrite Ht, orb_true_r, <- !List.app_assoc. repeat split; auto.
        now constructor.
  - intros [= <- <-]. split; [assumption|]. exists ps, false.
    rewrite orb_false_r. repeat split; auto. now constructor.
  - intros [= <- <-]. split; [assumption|]. exists ps, false.
    rewrite orb_false_r. repeat split; auto. now constructor.
Qed.


Lemma processMessage_ends s td r st o st' :
  processMessage rt s td r st = (o, st') ->
  w st' = w st /\ bodyClosed st' = bodyClosed st /\
  exists added, trace st' = trace st ++ added /\ processEnds td o added.
Proof.
  unfold processMessage. unfold bind at 1.
  destruct (extractJsonBody rt r st) as [[[data|]|msg] st1] eqn:E;
    destruct (extractJsonBody_effects _ _ _ _ E) as (Hw & Hb & ps & Ht & Hps).
  - destruct (index data "Timestamp") as [| | |ts| |];
      try (intros [= <- <-]; repeat split; auto; exists ps; split; auto; now constructor).
    destruct (index data "Message") as [| | |m| |];
      try (intros [= <- <-]; repeat split; auto; exists ps; split; auto; now constructor).
    destruct (index data "MessageId") as [| | |mid| |];
      try (intros [= <- <-]; repeat split; auto; exists ps; split; auto; now constructor).
    destruct (index data "Subject") as [| | |sub| |];
      try (intros [= <- <-]; repeat split; auto; exists ps; split; auto; now constructor);
      cbn; destruct (Logger s); intros [= <- <-]; repeat split; auto; cbn;
      rewrite Ht, <- ?List.app_assoc.
    all: try (eexists (ps ++ [Go (Callback td) (Some _)]);
              split; [now rewrite <- ?List.app_assoc | now constructor]).
    all: eexists ((ps ++ [LoggerPrint _; LoggerPrint _]) ++ [Go (Callback td) (Some _)]);
         split; [now rewrite <- !List.app_assoc
                | constructor; apply prints_app; [assumption | reflexivity]].
  - intros [= <- <-]. repeat split; auto. exists ps. split; auto. now constructor.
  - intros [= <- <-]. repeat split; auto. exists ps. split; auto. now constructor.
Qed.

Lemma simpleResponse_fresh (code : Z) (msg : string) st :
  w st = newResponseWriter ->
  simpleResponse code msg st =
  (Returned tt,
   mkExchange (response code msg) (unread st) (bodyClosed st) (trace st)).
Proof.
  destruct st as [w0 u c t]. cbn. intros ->. reflexivity.
Qed.


Lemma flow_then_response {A} (m : M Func A) r o st :
  keeps_w m ->
  bind m (fun _ => simpleResponse StatusOK "ok") (start r) = (o, st) ->
  exists o1 st1,
    m (start r) = (o1, st1) /\
    o = match o1 with Returned _ => Returned tt | Panicked msg => Panicked msg end /\
    st = mkExchange (afterFlow o) (unread st1) (bodyClosed st1) (trace st1).
Proof.
  intros Hk. unfold bind.
  destruct (m (start r)) as [[a|msg] st1] eqn:E; pose proof (Hk _ _ _ E) as Hw.
  - rewrite simpleResponse_fresh by exact Hw. intros [= <- <-]. now exists (Returned a), st1.
  - intros [= <- <-]. exists (Panicked msg), st1. repeat split.
    destruct st1 as [w1 u1 c1 t1]. cbn in *. now subst.
Qed.

Lemma serve_ends s r : serveEnds rt s r (serve rt s r).1 (serve rt s r).2.
Proof.
  unfold serve, ServeHTTP.
  destruct (topics_lookup s (URL_Path r)) as [td|] eqn:Hl.
  - destruct (decide _) as [Harn|Harn].
    + destruct (decide _) as [Hc|Hc]; [|destruct (decide _) as [Hn|Hn]].
      * destruct (bind _ _ _) as [o st] eqn:E. cbn [fst snd].
        apply flow_then_response in E; [|apply keeps_w_confirmSub].
        destruct E as (o1 & st1 & E1 & -> & ->).
        destruct (confirmSub_ends _ _ _ _ _ _ E1) as (_ & added & closed & Ht & Hb & Hends).
        cbn in Ht, Hb. rewrite Ht, Hb.
        destruct o1 as [[]|msg]; now apply ServedConfirmation with td.
      * destruct (bind _ _ _) as [o st] eqn:E. cbn [fst snd].
        apply flow_then_response in E; [|apply keeps_w_processMessage].
        destruct E as (o1 & st1 & E1 & -> & ->).
        destruct (processMessage_ends _ _ _ _ _ _ E1) as (_ & Hb & added & Ht & Hends).
        cbn in Ht, Hb. rewrite Ht, Hb.
        destruct o1 as [[]|msg]; now apply ServedNotification with td.
      * rewrite simpleResponse_fresh by reflexivity. now apply ServedNotImplemented with td.
    + rewrite simpleResponse_fresh by reflexivity. now apply ServedBadRequest with td.
  - rewrite simpleResponse_fresh by reflexivity. now apply ServedNotFound.
Qed.


(** *** What follows from the ways a call ends *)

Lemma prints_quiet (ps : list (event Func)) :
  prints ps -> gets ps = [] /\ callbacks ps = [].
Proof.
  unfold prints. induction ps as [|e ps IH]; [easy|].
  cbn [forallb]. intros [He Hps]%andb_true_iff. destruct (IH Hps) as [Hg Hc].
  destruct e; try discriminate; cbn; auto.
Qed.

Lemma gets_app (a b : list (event Func)) : gets (a ++ b) = gets a ++ gets b.
Proof. apply omap_app. Qed.

Lemma callbacks_app (a b : list (event Func)) :
  callbacks (a ++ b) = callbacks a ++ callbacks b.
Proof. apply omap_app. Qed.

Lemma gets_get (url : string) (l : list (event Func)) :
  gets (HttpGet url :: l) = url :: gets l.
Proof. reflexivity. Qed.

Lemma gets_go (f : Func) (a : option Message.t) (l : list (event Func)) :
  gets (Go f a :: l) = gets l.
Proof. reflexivity. Qed.

Lemma callbacks_get (url : string) (l : list (event Func)) :
  callbacks (HttpGet url :: l) = callbacks l.
Proof. reflexivity. Qed.

Lemma callbacks_go (f : Func) (a : option Message.t) (l : list (event Func)) :
  callbacks (Go f a :: l) = (f, a) :: callbacks l.
Proof. reflexivity. Qed.

Lemma gets_nil : gets (@nil (event Func)) = [].
Proof. reflexivity. Qed.

Lemma callbacks_nil : callbacks (@nil (event Func)) = [].
Proof. reflexivity. Qed.

Ltac trace_facts :=
  repeat match goal with
  | H : prints ?ps |- _ =>
      lazymatch goal with
      | _ : gets ps = [] |- _ => fail
      | _ => pose proof (prints_quiet ps H) as [? ?]
      end
  end;
  rewrite ?gets_app, ?callbacks_app, ?gets_get, ?callbacks_get, ?gets_go,
    ?callbacks_go, ?gets_app, ?callbacks_app, ?gets_go, ?callbacks_go,
    ?gets_nil, ?callbacks_nil;
  repeat match goal with
  | H : gets _ = [] |- _ => rewrite H
  | H : callbacks _ = [] |- _ => rewrite H
  end;
  cbn [app length].

(** X6.  When the handler returns, what it has written is settled by the
    path, the channel header and the type header of the request alone:
    the status and line of [verdict], under the content type
    text/plain; charset=utf-8, whatever the body, the decoder and the
    network did. *)
Theorem response_follows_routing s r st :
  serve rt s r = (Returned tt, st) ->
  w st = response (verdict s r).1 (verdict s r).2.
Proof.
  intros E. pose proof (serve_ends s r) as H. rewrite E in H. cbn [fst snd] in H.
  unfold verdict.
  inversion H as [Hl|td Hl Harn|td Hl Harn Hc Hn|td o added closed u Hl Harn Hc He
                  |td o added u Hl Harn Hn He]; subst; rewrite Hl; cbn [w].
  - reflexivity.
  - destruct (decide _); [contradiction | reflexivity].
  - destruct (decide _); [|contradiction].
    destruct (decide _); [contradiction|].
    destruct (decide _); [contradiction | reflexivity].
  - destruct (decide _); [|contradiction].
    destruct (decide _); [reflexivity | contradiction].
  - destruct (decide _); [|contradiction].
    destruct (decide _) as [Hc|_]; [reflexivity|].
    destruct (decide _); [reflexivity | contradiction].
Qed.

(** X7.  Whatever the request and however the call ends, the handler
    sends at most one GET and starts at most one callback. *)
Theorem one_get_one_callback s r :
  (length (gets (trace (serve rt s r).2)) <= 1)%nat /\
  (length (callbacks (trace (serve rt s r).2)) <= 1)%nat.
Proof.
  pose proof (serve_ends s r) as H.
  destruct (serve rt s r) as [o st]. cbn [fst snd] in *.
  inversion H as [Hl|td Hl Harn|td Hl Harn Hc Hn|td o' added closed u Hl Harn Hc He
                  |td o' added u Hl Harn Hn He]; subst; cbn [trace];
    try (cbn; lia).
  - inversion He; subst; trace_facts; lia.
  - inversion He; subst; trace_facts; lia.
Qed.

(** X10.  A handler that panics has written nothing, has sent no GET,
    has started no callback and has not closed the body; it has printed
    at most.  It panics only for a confirmation or a notification to a
    registered path whose channel header matches. *)
Theorem panic_leaves_nothing s r msg st :
  serve rt s r = (Panicked msg, st) ->
  w st = newResponseWriter /\ bodyClosed st = false /\
  prints (trace st) /\ gets (trace st) = [] /\ callbacks (trace st) = [] /\
  exists td,
    topics_lookup s (URL_Path r) = Some td /\
    TopicARN td = Header_Get (Header_ r) "x-amz-sns-topic-arn" /\
    (Header_Get (Header_ r) "x-amz-sns-message-type" = "SubscriptionConfirmation" \/
     Header_Get (Header_ r) "x-amz-sns-message-type" = "Notification").
Proof.
  intros E. pose proof (serve_ends s r) as H. rewrite E in H. cbn [fst snd] in H.
  inversion H as [Hl|td Hl Harn|td Hl Harn Hc Hn|td o added closed u Hl Harn Hc He
                  |td o added u Hl Harn Hn He]; subst.
  - inversion He as [| msg' ps Hps | |]; subst. cbn.
    destruct (prints_quiet _ Hps) as [Hg Hk].
    repeat split; auto. exists td. auto.
  - inversion He as [| msg' ps Hps |]; subst. cbn.
    destruct (prints_quiet _ Hps) as [Hg Hk].
    repeat split; auto. exists td. auto.
Qed.


(** X8.  A callback the handler starts is the one registered for the
    path of the request, whose channel the request names, and the request
    is answered with 200.  It gets nil only for a confirmation, after the
    only GET has succeeded and the body was closed; it gets a message only
    for a notification, and then no GET was sent. *)
Theorem callbacks_are_registered s r f a :
  (f, a) ∈ callbacks (trace (serve rt s r).2) ->
  (serve rt s r).1 = Returned tt /\
  w (serve rt s r).2 = response StatusOK "ok" /\
  exists td,
    topics_lookup s (URL_Path r) = Some td /\ f = Callback td /\
    TopicARN td = Header_Get (Header_ r) "x-amz-sns-topic-arn" /\
    match a with
    | None =>
        Header_Get (Header_ r) "x-amz-sns-message-type" = "SubscriptionConfirmation"
        /\ bodyClosed (serve rt s r).2 = true
        /\ exists url, gets (trace (serve rt s r).2) = [url] /\
                       http_Get_fails rt url = false
    | Some _ =>
        Header_Get (Header_ r) "x-amz-sns-message-type" = "Notification"
        /\ gets (trace (serve rt s r).2) = []
    end.
Proof.
  pose proof (serve_ends s r) as H.
  destruct (serve rt s r) as [o st]. cbn [fst snd] in *.
  inversion H as [Hl|td Hl Harn|td Hl Harn Hc Hn|td o' added closed u Hl Harn Hc He
                  |td o' added u Hl Harn Hn He]; subst; cbn [trace w bodyClosed];
    try (cbn; intros Hin; now apply elem_of_nil in Hin).
  - inversion He; subst; trace_facts; intros Hin;
      try (now apply elem_of_nil in Hin).
    apply list_elem_of_singleton in Hin as [= -> ->].
    repeat split. exists td. repeat split; eauto.
  - inversion He; subst; trace_facts; intros Hin;
      try (now apply elem_of_nil in Hin).
    apply list_elem_of_singleton in Hin as [= -> ->].
    repeat split. exists td. repeat split; eauto.
Qed.

Lemma prints_no_go (ps : list (event Func)) (g : Func) (b : option Message.t) :
  prints ps -> Go g b ∉ ps.
Proof.
  unfold prints. rewrite forallb_forall. intros Hp Hin.
  apply list_elem_of_In, Hp in Hin. discriminate.
Qed.

Lemma get_prints_no_go (ps ps' : list (event Func)) (url : string)
    (g : Func) (b : option Message.t) :
  prints ps -> prints ps' -> Go g b ∉ ps ++ HttpGet url :: ps'.
Proof.
  intros Hp Hp' [Hin|Hin]%elem_of_app.
  - now apply prints_no_go in Hin.
  - apply elem_of_cons in Hin as [?|Hin]; [discriminate|].
    now apply prints_no_go in Hin.
Qed.

Lemma last_event (l l1 l2 : list (event Func)) (e : event Func)
    (f : Func) (a : option Message.t) :
  (forall g b, Go g b ∉ l) ->
  l ++ [e] = l1 ++ Go f a :: l2 ->
  l2 = [] /\ l1 = l /\ e = Go f a.
Proof.
  revert l1. induction l as [|x l IH]; intros l1 Hl E.
  - destruct l1 as [|y l1]; cbn in E.
    + now injection E as -> <-.
    + injection E as <- E. now destruct l1.
  - destruct l1 as [|y l1]; cbn in E.
    + injection E as -> E. destruct (Hl f a). now left.
    + injection E as <- E.
      destruct (IH l1) as (-> & -> & ->); auto.
      intros g b Hin. apply (Hl g b). now right.
Qed.

(** X9.  Starting the callback is the last thing a call does before it
    answers, and no other callback comes before it; before a callback with
    nil there is the successful GET, and before one with a message there
    are only printed lines. *)
Theorem callback_is_last s r f a l1 l2 :
  trace (serve rt s r).2 = l1 ++ Go f a :: l2 ->
  l2 = [] /\ callbacks l1 = [] /\
  match a with
  | None =>
      exists url pre mid,
        l1 = pre ++ HttpGet url :: mid /\ prints pre /\ prints mid /\
        http_Get_fails rt url = false
  | Some _ => prints l1
  end.
Proof.
  pose proof (serve_ends s r) as H.
  destruct (serve rt s r) as [o st]. cbn [fst snd] in *.
  assert (Hin : forall l, l = l1 ++ Go f a :: l2 -> Go f a ∈ l).
  { intros l ->. apply elem_of_app. right. now left. }
  inversion H as [Hl|td Hl Harn|td Hl Harn Hc Hn|td o' added closed u Hl Harn Hc He
                  |td o' added u Hl Harn Hn He]; subst; cbn [trace];
    intros E; try (apply Hin in E; now apply elem_of_nil in E).
  - revert E. inversion He; subst; intros E.
    + apply Hin in E. now apply prints_no_go in E.
    + apply Hin in E. now apply prints_no_go in E.
    + apply Hin in E. now apply get_prints_no_go in E.
    + match type of E with
      | ?p ++ HttpGet ?u :: ?q ++ ?z = _ =>
          replace (p ++ HttpGet u :: q ++ z) with ((p ++ HttpGet u :: q) ++ z) in E
            by (now rewrite <- List.app_assoc)
      end.
      apply last_event in E as (-> & -> & [= <- <-]).
      * split; [reflexivity|]. split; [now trace_facts|].
        now eexists _, _, _.
      * intros g b. now apply get_prints_no_go.
  - revert E. inversion He; subst; intros E.
    + apply Hin in E. now apply prints_no_go in E.
    + apply Hin in E. now apply prints_no_go in E.
    + apply last_event in E as (-> & -> & [= <- <-]).
      * split; [reflexivity|]. split; [now trace_facts | assumption].
      * intros g b. now apply prints_no_go.
Qed.


(** *** The other branches of the dispatch *)

(** X5.  A request to a registered path with the matching channel whose
    type header is neither SubscriptionConfirmation nor Notification (or
    is absent) is answered with 501 and the line "not implemented"; the
    body is not read and nothing else happens. *)
Theorem unknown_type_501 s r td :
  topics_lookup s (URL_Path r) = Some td ->
  Header_Get (Header_ r) "x-amz-sns-topic-arn" = TopicARN td ->
  Header_Get (Header_ r) "x-amz-sns-message-type" <> "SubscriptionConfirmation" ->
  Header_Get (Header_ r) "x-amz-sns-message-type" <> "Notification" ->
  serve rt s r =
  (Returned tt,
   mkExchange (response StatusNotImplemented "not implemented") (Body r) false []).
Proof.
  intros Hl Harn Hc Hn. unfold serve, ServeHTTP. rewrite Hl, Harn.
  destruct (decide _); [|contradiction].
  destruct (decide _); [contradiction|].
  destruct (decide _); [contradiction|].
  now rewrite simpleResponse_fresh.
Qed.


(** X12.  A structured confirmation or notification whose body decodes
    without error to the nil map, as the JSON text null does, is answered
    with 200 and the line "ok", and nothing else happens: no panic, no
    print, no GET, no callback. *)
Theorem null_body_is_no_data s r td ty n :
  accepted s r td ty ->
  ty = "SubscriptionConfirmation" \/ ty = "Notification" ->
  Sscanf_d (Header_Get (Header_ r) "Content-Length") = Some n ->
  0 <= n <= Z.of_nat (String.length (Body r)) ->
  Header_Get (Header_ r) "x-amz-sns-rawdelivery" <> "true" ->
  json_Unmarshal rt (String.substring 0 (Z.to_nat n) (Body r)) = Unmarshaled None ->
  exists st,
    serve rt s r = (Returned tt, st) /\ w st = response StatusOK "ok" /\
    trace st = [].
Proof.
  intros Hacc Hty H Hn Hraw Hj. unfold serve.
  assert (E : exists st1, extractJsonBody rt r (start r) = (Returned None, st1) /\
                          w st1 = newResponseWriter /\ trace st1 = []).
  { unfold extractJsonBody. rewrite H.
    unfold bind. rewrite makeslice_ok by (cbn [unread start]; lia).
    cbv beta iota. unfold ReadFull. cbn [unread start].
    destruct (Nat.leb_spec (Z.to_nat n) (String.length (Body r))) as [_|?]; [|lia].
    destruct (decide _) as [?|_]; [contradiction|].
    rewrite Hj. eexists. split; [reflexivity|]. now split. }
  destruct E as (st1 & E & Hw & Ht).
  destruct Hty as [-> | ->].
  - rewrite (ServeHTTP_confirmation rt s r td _ Hacc).
    unfold confirmSub. rewrite (bind_returned _ _ (start r) tt st1).
    2: { now apply flow_none. }
    rewrite simpleResponse_fresh by exact Hw.
    eexists. split; [reflexivity|]. now cbn.
  - rewrite (ServeHTTP_notification rt s r td _ Hacc).
    unfold processMessage. rewrite (bind_returned _ _ (start r) tt st1).
    2: { now apply flow_none. }
    rewrite simpleResponse_fresh by exact Hw.
    eexists. split; [reflexivity|]. now cbn.
Qed.

(** X13.  A confirmation or notification to a registered path with the
    matching channel whose [Content-Length] scans as a negative integer
    panics in [make]; nothing has been read, written, printed or started
    by then. *)
Theorem negative_content_length_panics s r td ty n :
  accepted s r td ty ->
  ty = "SubscriptionConfirmation" \/ ty = "Notification" ->
  Sscanf_d (Header_Get (Header_ r) "Content-Length") = Some n -> n < 0 ->
  serve rt s r =
  (Panicked "runtime error: makeslice: len out of range", start r).
Proof.
  intros Hacc Hty H Hn. unfold serve.
  pose proof (extractJsonBody_negative rt r (start (Func := Func) r) n H Hn) as E.
  destruct Hty as [-> | ->].
  - rewrite (ServeHTTP_confirmation rt s r td _ Hacc).
    apply bind_panicked. unfold confirmSub. now apply bind_panicked.
  - rewrite (ServeHTTP_notification rt s r td _ Hacc).
    apply bind_panicked. unfold processMessage. now apply bind_panicked.
Qed.

(** X25.  A confirmation or notification to a registered path with the
    matching channel whose [Content-Length] is above [maxAlloc] and more
    than the body has panics in [make], as a negative one does; nothing
    has been read, written, printed or started by then. *)
Theorem content_length_above_maxAlloc_panics s r td ty n :
  accepted s r td ty ->
  ty = "SubscriptionConfirmation" \/ ty = "Notification" ->
  Sscanf_d (Header_Get (Header_ r) "Content-Length") = Some n ->
  maxAlloc < n -> Z.of_nat (String.length (Body r)) < n ->
  serve rt s r =
  (Panicked "runtime error: makeslice: len out of range", start r).
Proof.
  intros Hacc Hty H Hm Hn. unfold serve.
  pose proof (extractJsonBody_above_maxAlloc rt r (start (Func := Func) r) n
                H Hm Hn) as E.
  destruct Hty as [-> | ->].
  - rewrite (ServeHTTP_confirmation rt s r td _ Hacc).
    apply bind_panicked. unfold confirmSub. now apply bind_panicked.
  - rewrite (ServeHTTP_notification rt s r td _ Hacc).
    apply bind_panicked. unfold processMessage. now apply bind_panicked.
Qed.


(** *** The logger only logs *)

Lemma withoutLogger_app (a b : list (event Func)) :
  withoutLogger (a ++ b) = withoutLogger a ++ withoutLogger b.
Proof. apply List.filter_app. Qed.

Lemma sameButLog_refl st : sameButLog st st.
Proof. now unfold sameButLog. Qed.

Ltac same := now (split; [reflexivity | apply sameButLog_refl]).

Lemma confirmSub_logger s s' td r st :
  (confirmSub rt s td r st).1 = (confirmSub rt s' td r st).1 /\
  sameButLog (confirmSub rt s td r st).2 (confirmSub rt s' td r st).2.
Proof.
  unfold confirmSub.
  destruct (extractJsonBody rt r st) as [[[data|]|msg] st1] eqn:E;
    rewrite ?(bind_returned _ _ _ _ _ E), ?(bind_panicked _ _ _ _ _ E); try same.
  destruct (index data "SubscribeURL") as [| | |url| |]; try same.
  cbn -[withoutLogger]. destruct (http_Get_fails rt url); [same|].
  destruct (Logger s), (Logger s'); cbn -[withoutLogger]; split; try reflexivity;
    unfold sameButLog; cbn -[withoutLogger]; rewrite !withoutLogger_app; cbn;
    rewrite ?List.app_nil_r; auto.
Qed.

Lemma processMessage_logger s s' td r st :
  (processMessage rt s td r st).1 = (processMessage rt s' td r st).1 /\
  sameButLog (processMessage rt s td r st).2 (processMessage rt s' td r st).2.
Proof.
  unfold processMessage.
  destruct (extractJsonBody rt r st) as [[[data|]|msg] st1] eqn:E;
    rewrite ?(bind_returned _ _ _ _ _ E), ?(bind_panicked _ _ _ _ _ E); try same.
  destruct (index data "Timestamp") as [| | |ts| |]; try same.
  destruct (index data "Message") as [| | |m| |]; try same.
  destruct (index data "MessageId") as [| | |mid| |]; try same.
  destruct (index data "Subject") as [| | |sub| |]; try same;
    cbn; destruct (Logger s), (Logger s'); cbn -[withoutLogger]; split; try reflexivity;
    unfold sameButLog; cbn -[withoutLogger]; rewrite !withoutLogger_app; cbn;
    rewrite ?List.app_nil_r; auto.
Qed.

Lemma response_after_same {A} (m m' : M Func A) st :
  keeps_w m -> keeps_w m' -> w st = newResponseWriter ->
  (m st).1 = (m' st).1 -> sameButLog (m st).2 (m' st).2 ->
  (bind m (fun _ => simpleResponse StatusOK "ok") st).1 =
  (bind m' (fun _ => simpleResponse StatusOK "ok") st).1 /\
  sameButLog (bind m (fun _ => simpleResponse StatusOK "ok") st).2
             (bind m' (fun _ => simpleResponse StatusOK "ok") st).2.
Proof.
  intros Hk Hk' Hw Ho Hs. unfold bind.
  destruct (m st) as [[a|msg] st1] eqn:E, (m' st) as [[a'|msg'] st1'] eqn:E';
    cbn in Ho, Hs; try discriminate.
  - rewrite !simpleResponse_fresh
      by (rewrite <- Hw; first [eapply Hk; eassumption | eapply Hk'; eassumption]).
    split; [reflexivity|]. unfold sameButLog in *. cbn [w unread bodyClosed trace fst snd].
    destruct Hs as (_ & Hu & Hb & Ht). cbn [fst snd] in *. repeat split; assumption.
  - injection Ho as ->. now split.
Qed.

(** X15.  The logger only logs: with another logger, or none, the call
    ends the same way and leaves the same response, the same rest of the
    body and the same events, but for the lines of the logger. *)
Theorem logger_only_logs s r (lg : option unit) :
  (serve rt s r).1 = (serve rt (mkServer lg (topics s)) r).1 /\
  sameButLog (serve rt s r).2 (serve rt (mkServer lg (topics s)) r).2.
Proof.
  unfold serve, ServeHTTP.
  change (topics_lookup (mkServer lg (topics s)) (URL_Path r))
    with (topics_lookup s (URL_Path r)).
  destruct (topics_lookup s (URL_Path r)) as [td|]; [|same].
  destruct (decide _); [|same].
  destruct (decide _); [|destruct (decide _); [|same]].
  - apply response_after_same; try apply keeps_w_confirmSub; try reflexivity;
      apply confirmSub_logger.
  - apply response_after_same; try apply keeps_w_processMessage; try reflexivity;
      apply processMessage_logger.
Qed.


(** *** Nothing is read past [Content-Length] *)

Lemma agnostic_ret {A} (a : A) : @agnostic Func _ (ret a).
Proof. now intros st x. Qed.

Lemma agnostic_panic {A} (msg : string) : @agnostic Func A (panic msg).
Proof. now intros st x. Qed.

Lemma agnostic_emit (e : event Func) : agnostic (emit e).
Proof. now intros st x. Qed.

Lemma agnostic_onWriter (f : ResponseWriter -> ResponseWriter) :
  @agnostic Func _ (onWriter f).
Proof. now intros st x. Qed.

Lemma agnostic_closeBody : @agnostic Func _ closeBody.
Proof. now intros st x. Qed.

Lemma agnostic_assertString (v : value) : @agnostic Func _ (assertString v).
Proof. destruct v; now intros st x. Qed.

Lemma agnostic_bind {A B} (m : M Func A) (k : A -> M Func B) :
  agnostic m -> (forall a, agnostic (k a)) -> agnostic (bind m k).
Proof.
  intros Hm Hk st x. unfold bind. rewrite Hm.
  destruct (m st) as [[a|msg] st1]; cbn [fst snd]; [apply Hk | reflexivity].
Qed.

Ltac agnostic :=
  repeat first
    [ apply agnostic_bind; [|intros ?]
    | apply agnostic_ret | apply agnostic_panic | apply agnostic_emit
    | apply agnostic_onWriter | apply agnostic_closeBody
    | apply agnostic_assertString
    | match goal with |- agnostic (match ?x with _ => _ end) => destruct x end
    | match goal with |- agnostic (if ?x then _ else _) => destruct x end ].

Lemma agnostic_simpleResponse (code : Z) (msg : string) :
  @agnostic Func _ (simpleResponse code msg).
Proof. unfold simpleResponse. agnostic. Qed.

Lemma stopsAfter_bind {A B} (a : string) (m : M Func A) (k : A -> M Func B) st :
  stopsAfter a m st -> (forall v, agnostic (k v)) -> stopsAfter a (bind m k) st.
Proof.
  intros (o & st1 & Hm) Hk. destruct o as [v|msg].
  - exists (k v st1).1, (k v st1).2. intros x.
    rewrite (bind_returned _ _ _ _ _ (Hm x)). apply Hk.
  - exists (Panicked msg), st1. intros x.
    now rewrite (bind_panicked _ _ _ _ _ (Hm x)).
Qed.

Lemma extractJsonBody_stopsAfter r (a : string) st :
  Sscanf_d (Header_Get (Header_ r) "Content-Length") = Some (Z.of_nat (String.length a)) ->
  stopsAfter a (extractJsonBody rt r) st.
Proof.
  intros H. unfold extractJsonBody. rewrite H.
  assert (Hmake : forall x,
            makeslice (Z.of_nat (String.length a)) (withUnread (a +:+ x) st) =
            (Returned tt, withUnread (a +:+ x) st)).
  { intros x. apply makeslice_ok; [lia|]. right. cbn [unread withUnread].
    rewrite DigitsFacts.length_app. lia. }
  assert (Hread : forall x,
            ReadFull (Z.of_nat (String.length a)) (withUnread (a +:+ x) st) =
            (Returned (Some a), withUnread x st)).
  { intros x. unfold ReadFull. rewrite Nat2Z.id. cbn [unread withUnread].
    destruct (Nat.leb_spec (String.length a) (String.length (a +:+ x))) as [_|Hlt].
    - rewrite (DigitsFacts.substring_prefix a x _ eq_refl).
      rewrite (DigitsFacts.substring_suffix a x _ _ eq_refl).
      rewrite DigitsFacts.length_app.
      replace (String.length a + String.length x - String.length a)%nat
        with (String.length x) by lia.
      now rewrite DigitsFacts.substring_all.
    - rewrite DigitsFacts.length_app in Hlt. lia. }
  match goal with
  | |- stopsAfter a (bind _ (fun _ => ?m)) st =>
      assert (Hm : stopsAfter a m st)
  end.
  { apply stopsAfter_bind.
    - exists (Returned (Some a)), st. exact Hread.
    - intros [bytes|]; agnostic. }
  destruct Hm as (o & st1 & Hm). exists o, st1. intros x.
  rewrite (bind_returned _ _ _ _ _ (Hmake x)). apply Hm.
Qed.

(** X14.  What follows the first [Content-Length] bytes of the body has
    no effect: two requests with the same path and headers whose bodies
    agree on those bytes end the same way, with the same response and the
    same events. *)
Theorem bytes_past_content_length_ignored s (path : string) (h : Header)
    (a x y : string) :
  Sscanf_d (Header_Get h "Content-Length") = Some (Z.of_nat (String.length a)) ->
  (serve rt s (mkRequest path h (a +:+ x))).1 =
    (serve rt s (mkRequest path h (a +:+ y))).1 /\
  w (serve rt s (mkRequest path h (a +:+ x))).2 =
    w (serve rt s (mkRequest path h (a +:+ y))).2 /\
  trace (serve rt s (mkRequest path h (a +:+ x))).2 =
    trace (serve rt s (mkRequest path h (a +:+ y))).2 /\
  bodyClosed (serve rt s (mkRequest path h (a +:+ x))).2 =
    bodyClosed (serve rt s (mkRequest path h (a +:+ y))).2.
Proof.
  intros H.
  set (r0 := mkRequest path h "").
  assert (Hserve : forall z,
            serve rt s (mkRequest path h (a +:+ z)) =
            ServeHTTP rt s r0 (withUnread (a +:+ z) (start r0))) by reflexivity.
  assert (Hall : exists o st1, forall z, exists u,
            ServeHTTP rt s r0 (withUnread (a +:+ z) (start r0)) = (o, withUnread u st1)).
  { unfold ServeHTTP.
    assert (Hresp : forall code msg, exists o st1, forall z, exists u,
              simpleResponse code msg (withUnread (a +:+ z) (start r0))
              = (o, withUnread u st1)).
    { intros code msg. eexists _, _. intros z. eexists.
      apply agnostic_simpleResponse. }
    assert (Hflow : forall m : M Func unit,
              stopsAfter a m (start r0) ->
              exists o st1, forall z, exists u,
                bind m (fun _ => simpleResponse StatusOK "ok")
                  (withUnread (a +:+ z) (start r0)) = (o, withUnread u st1)).
    { intros m Hm.
      destruct (stopsAfter_bind a m (fun _ => simpleResponse StatusOK "ok")
                  (start r0) Hm) as (o & st1 & Hb).
      - intros _. apply agnostic_simpleResponse.
      - exists o, st1. intros z. now exists z. }
    destruct (topics_lookup s (URL_Path r0)) as [td|]; [|apply Hresp].
    destruct (decide _); [|apply Hresp].
    destruct (decide _); [|destruct (decide _); [|apply Hresp]].
    - apply Hflow. unfold confirmSub. apply stopsAfter_bind.
      + now apply extractJsonBody_stopsAfter.
      + intros [data|]; agnostic.
    - apply Hflow. unfold processMessage. apply stopsAfter_bind.
      + now apply extractJsonBody_stopsAfter.
      + intros [data|]; agnostic. }
  destruct Hall as (o & st1 & Hall).
  rewrite !Hserve.
  destruct (Hall x) as (u & ->), (Hall y) as (u' & ->). now cbn.
Qed.


(** *** Registration, and serving what was registered *)

Lemma AddTopic_returns (s : Server Func) (arn endpoint : string) (cb : Func) :
  endpoint <> "" ->
  AddTopic s arn endpoint cb =
  Returned
    (mkServer (Logger s)
       (Some match topics s with
             | None => {[ routingKey endpoint := mkTopicDescription arn cb ]}
             | Some m => <[ routingKey endpoint := mkTopicDescription arn cb ]> m
             end),
     match Logger s with
     | Some _ =>
         [LoggerPrint ("Adding endpoint '" +:+ routingKey endpoint
            +:+ "' for topic '" +:+ arn +:+ "'" +:+ newline)]
     | None => []
     end).
Proof.
  intros Hne. destruct endpoint as [|c rest]; [congruence|].
  unfold AddTopic.
  assert (Hkey : (if negb (Ascii.eqb c "/") then "/" +:+ String c rest
                  else String c rest) = routingKey (String c rest)).
  { unfold routingKey. destruct (Ascii.eqb_spec c "/") as [->|Hc]; [reflexivity|].
    destruct c as [[] [] [] [] [] [] [] []]; try reflexivity. now destruct Hc. }
  now rewrite Hkey.
Qed.

Lemma routingKey_idem (endpoint : string) :
  routingKey (routingKey endpoint) = routingKey endpoint.
Proof. destruct (routingKey_slash endpoint) as [rest ->]. reflexivity. Qed.

(** X1.  [AddTopic] with a non-empty path returns, and stores the
    channel and the callback under the path with a leading slash (the path
    itself if it has one, the path after a slash otherwise); every other
    path keeps what it had, the logger stays, and a logger there is
    prints one line naming the stored path and the channel. *)
Theorem AddTopic_stores (s : Server Func) (arn endpoint : string) (cb : Func) :
  endpoint <> "" ->
  exists s' log,
    AddTopic s arn endpoint cb = Returned (s', log) /\
    (exists rest, routingKey endpoint = String "/" rest /\
                  (endpoint = routingKey endpoint \/ endpoint = rest)) /\
    topics_lookup s' (routingKey endpoint) = Some (mkTopicDescription arn cb) /\
    (forall p, p <> routingKey endpoint -> topics_lookup s' p = topics_lookup s p) /\
    Logger s' = Logger s /\
    log = match Logger s with
          | Some _ =>
              [LoggerPrint ("Adding endpoint '" +:+ routingKey endpoint
                 +:+ "' for topic '" +:+ arn +:+ "'" +:+ newline)]
          | None => []
          end.
Proof.
  intros Hne. rewrite AddTopic_returns by assumption.
  eexists _, _. split; [reflexivity|]. split.
  { destruct endpoint as [|c rest]; [congruence|]. unfold routingKey.
    destruct (Ascii.eqb_spec c "/") as [->|Hc]; [exists rest; auto|].
    exists (String c rest).
    destruct c as [[] [] [] [] [] [] [] []]; now split; auto. }
  unfold topics_lookup. cbn [topics Logger].
  destruct (topics s) as [m|]; repeat split.
  - apply lookup_insert_eq.
  - intros p Hp. now apply lookup_insert_ne.
  - apply lookup_singleton_eq.
  - intros p Hp. now apply lookup_singleton_ne.
Qed.

(** X2.  Two registrations whose paths come to the same stored path, as
    "sns" and "/sns" do, are one entry: the second replaces the first, and
    the map is the one the second registration alone gives. *)
Theorem AddTopic_same_key_last_wins (s : Server Func) (arn1 arn2 e1 e2 : string)
    (cb1 cb2 : Func) :
  e1 <> "" -> e2 <> "" -> routingKey e1 = routingKey e2 ->
  exists s1 log1 s2 log2,
    AddTopic s arn1 e1 cb1 = Returned (s1, log1) /\
    AddTopic s1 arn2 e2 cb2 = Returned (s2, log2) /\
    topics_lookup s2 (routingKey e1) = Some (mkTopicDescription arn2 cb2) /\
    (forall p, p <> routingKey e1 -> topics_lookup s2 p = topics_lookup s p) /\
    (exists s2' log2',
       AddTopic s arn2 e2 cb2 = Returned (s2', log2') /\ topics s2 = topics s2').
Proof.
  intros H1 H2 Hk.
  eexists _, _, _, _. split; [now apply AddTopic_returns|].
  split; [now apply AddTopic_returns|].
  unfold topics_lookup. cbn [topics Logger]. rewrite <- Hk.
  destruct (topics s) as [m|] eqn:Ht; repeat split.
  - apply lookup_insert_eq.
  - intros p Hp. now rewrite !lookup_insert_ne.
  - eexists _, _. split; [now apply AddTopic_returns|]. cbn [topics].
    rewrite Ht, <- Hk. f_equal. apply insert_insert_eq.
  - apply lookup_insert_eq.
  - intros p Hp. now rewrite lookup_insert_ne, lookup_singleton_ne.
  - eexists _, _. split; [now apply AddTopic_returns|]. cbn [topics].
    rewrite Ht, <- Hk. f_equal. apply insert_singleton_eq.
Qed.

Lemma serve_ext (s s' : Server Func) r :
  topics_lookup s (URL_Path r) = topics_lookup s' (URL_Path r) ->
  Logger s = Logger s' ->
  serve rt s r = serve rt s' r.
Proof.
  intros Hl Hlog. unfold serve, ServeHTTP. rewrite Hl.
  destruct (topics_lookup s' (URL_Path r)) as [td|]; [|reflexivity].
  destruct (decide _); [|reflexivity].
  unfold confirmSub, processMessage. now rewrite Hlog.
Qed.

(** X4.  A registration changes nothing for the requests to other
    paths: they are served as before it. *)
Theorem registration_leaves_other_paths (s : Server Func) (arn endpoint : string)
    (cb : Func) r :
  endpoint <> "" -> URL_Path r <> routingKey endpoint ->
  exists s' log,
    AddTopic s arn endpoint cb = Returned (s', log) /\
    serve rt s' r = serve rt s r.
Proof.
  intros Hne Hp. rewrite AddTopic_returns by assumption.
  eexists _, _. split; [reflexivity|].
  apply serve_ext; [|reflexivity].
  unfold topics_lookup. cbn [topics].
  destruct (topics s) as [m|].
  - now apply lookup_insert_ne.
  - now apply lookup_singleton_ne.
Qed.

Lemma notification_runs s r td n data message messageId timeStr subject :
  accepted s r td "Notification" ->
  structuredBody rt r n data ->
  data !! "Message" = Some (VString message) ->
  data !! "MessageId" = Some (VString messageId) ->
  data !! "Timestamp" = Some (VString timeStr) ->
  subjectField data subject ->
  exists st,
    serve rt s r = (Returned tt, st) /\
    w st = response StatusOK "ok" /\
    callbacks (trace st) =
      [(Callback td,
        Some (Message.mk subject message messageId (parsedOrZero timeStr)))].
Proof.
  intros Hacc Hbody Hm Hid Hts Hsub. unfold serve.
  rewrite (ServeHTTP_notification rt s r td _ Hacc).
  destruct (structuredBody_some rt r (start (Func := Func) r) n data eq_refl Hbody)
    as (st1 & E & Hw & Hg & Hc).
  destruct (processMessage_run rt s r td _ _ _ _ _ _ _ E Hm Hid Hts Hsub)
    as (st2 & E2 & Hw2 & Hg2 & Hc2).
  rewrite (bind_returned _ _ _ _ _ E2).
  rewrite simpleResponse_fresh by (rewrite Hw2, Hw; reflexivity).
  eexists. split; [reflexivity|]. cbn [w trace]. now rewrite Hc2, Hc.
Qed.

(** X3.  After [AddTopic(arn, endpoint, cb)], a well-formed notification
    to the stored path that names [arn] is answered with 200 and starts
    [cb], once, with its message. *)
Theorem registered_then_delivered (s : Server Func) (arn endpoint : string)
    (cb : Func) r n data message messageId timeStr subject :
  endpoint <> "" ->
  URL_Path r = routingKey endpoint ->
  Header_Get (Header_ r) "x-amz-sns-topic-arn" = arn ->
  Header_Get (Header_ r) "x-amz-sns-message-type" = "Notification" ->
  structuredBody rt r n data ->
  data !! "Message" = Some (VString message) ->
  data !! "MessageId" = Some (VString messageId) ->
  data !! "Timestamp" = Some (VString timeStr) ->
  subjectField data subject ->
  exists s' log st,
    AddTopic s arn endpoint cb = Returned (s', log) /\
    serve rt s' r = (Returned tt, st) /\
    w st = response StatusOK "ok" /\
    callbacks (trace st) =
      [(cb, Some (Message.mk subject message messageId (parsedOrZero timeStr)))].
Proof.
  intros Hne Hp Harn Hty Hbody Hm Hid Hts Hsub.
  rewrite AddTopic_returns by assumption.
  edestruct (notification_runs
               (mkServer (Logger s)
                  (Some match topics s with
                        | None => {[ routingKey endpoint := mkTopicDescription arn cb ]}
                        | Some m => <[ routingKey endpoint := mkTopicDescription arn cb ]> m
                        end))
               r (mkTopicDescription arn cb))
    as (st & E & Hw & Hc); eauto.
  - repeat split; auto. unfold topics_lookup. cbn [topics]. rewrite Hp.
    destruct (topics s); [apply lookup_insert_eq | apply lookup_singleton_eq].
  - eexists _, _, st. split; [reflexivity|]. auto.
Qed.


(** *** What is read of the body, and when it is closed *)

(** X20.  A confirmation sent as a raw delivery panics: the field set of
    a raw delivery has no [SubscribeURL]. *)
Theorem raw_confirmation_panics s r td n :
  accepted s r td "SubscriptionConfirmation" ->
  Header_Get (Header_ r) "x-amz-sns-rawdelivery" = "true" ->
  Sscanf_d (Header_Get (Header_ r) "Content-Length") = Some n ->
  0 <= n <= Z.of_nat (String.length (Body r)) ->
  exists st,
    serve rt s r =
      (Panicked "interface conversion: interface {} is nil, not string", st) /\
    w st = newResponseWriter /\ trace st = [].
Proof.
  intros Hacc Hraw H Hn. unfold serve.
  rewrite (ServeHTTP_confirmation rt s r td _ Hacc).
  assert (E : exists data st1,
            extractJsonBody rt r (start r) = (Returned (Some data), st1) /\
            data !! "SubscribeURL" = None /\
            w st1 = newResponseWriter /\ trace st1 = []).
  { unfold extractJsonBody. rewrite H.
    unfold bind. rewrite makeslice_ok by (cbn [unread start]; lia).
    cbv beta iota. unfold ReadFull. cbn [unread start].
    destruct (Nat.leb_spec (Z.to_nat n) (String.length (Body r))) as [_|?]; [|lia].
    destruct (decide _) as [_|?]; [|contradiction].
    eexists _, _. split; [reflexivity|]. split; [now simplify_map_eq | now split]. }
  destruct E as (data & st1 & E & Hnone & Hw & Ht).
  eexists. split.
  - apply bind_panicked. unfold confirmSub.
    rewrite (bind_returned _ _ _ _ _ E). unfold index. rewrite Hnone. reflexivity.
  - now split.
Qed.


(** X22.  The handler closes the body of the request only when a
    confirmation has gone through: the GET has succeeded and the callback
    was started with nil. *)
Theorem body_closed_only_when_confirmed s r :
  bodyClosed (serve rt s r).2 = true ->
  exists td url,
    topics_lookup s (URL_Path r) = Some td /\
    Header_Get (Header_ r) "x-amz-sns-message-type" = "SubscriptionConfirmation" /\
    gets (trace (serve rt s r).2) = [url] /\ http_Get_fails rt url = false /\
    callbacks (trace (serve rt s r).2) = [(Callback td, None)].
Proof.
  pose proof (serve_ends s r) as H.
  destruct (serve rt s r) as [o st]. cbn [fst snd] in *.
  inversion H as [Hl|td Hl Harn|td Hl Harn Hc Hn|td o' added closed u Hl Harn Hc He
                  |td o' added u Hl Harn Hn He]; subst; cbn [trace bodyClosed];
    try discriminate.
  intros ->. inversion He; subst. exists td, url. trace_facts. auto.
Qed.

End Facts.
End FlowFacts.

(** ** The same, at concrete deliveries *)

Module Covered.
Import Digits GoTime GoFmt GoHttp Gosns Behaviour Examples MoreExamples
  GosnsFacts FlowFacts.

Lemma AddTopic_stores_witness :
  exists s' log,
    AddTopic fresh "arn:orders" "sns" 7%nat = Returned (s', log) /\
    topics_lookup s' "/sns" = Some (mkTopicDescription "arn:orders" 7%nat) /\
    log = [].
Proof.
  destruct (AddTopic_stores fresh "arn:orders" "sns" 7%nat)
    as (s' & log & E & _ & Hl & _ & _ & Hlog).
  - discriminate.
  - exists s', log. auto.
Defined.

Lemma AddTopic_same_key_last_wins_witness :
  exists s1 log1 s2 log2,
    AddTopic fresh "arn:first" "sns" 1%nat = Returned (s1, log1) /\
    AddTopic s1 "arn:second" "/sns" 2%nat = Returned (s2, log2) /\
    topics_lookup s2 "/sns" = Some (mkTopicDescription "arn:second" 2%nat).
Proof.
  destruct (AddTopic_same_key_last_wins fresh "arn:first" "arn:second" "sns" "/sns"
              1%nat 2%nat)
    as (s1 & log1 & s2 & log2 & E1 & E2 & Hl & _); try discriminate.
  - reflexivity.
  - exists s1, log1, s2, log2. auto.
Defined.

Lemma registered_then_delivered_witness :
  exists s' log st,
    AddTopic fresh (TopicARN topic) "sns" 9%nat = Returned (s', log) /\
    serve online s' notification = (Returned tt, st) /\
    w st = response StatusOK "ok" /\
    callbacks (trace st) =
      [(9%nat, Some (Message.mk "" "hello" "abc" (mkTime 2024 3 9 7 5 3 120000000)))].
Proof.
  apply (registered_then_delivered online fresh (TopicARN topic) "sns" 9%nat
           notification 75 notificationData "hello" "abc"
           "2024-03-09T07:05:03.12Z" "").
  - discriminate.
  - vm_compute. reflexivity.
  - vm_compute. reflexivity.
  - vm_compute. reflexivity.
  - repeat split; try (vm_compute; reflexivity); try (vm_compute; discriminate).
  - vm_compute. reflexivity.
  - vm_compute. reflexivity.
  - vm_compute. reflexivity.
  - left. split; vm_compute; reflexivity.
Defined.

Lemma registration_leaves_other_paths_witness :
  exists s' log,
    AddTopic server "arn:other" "other" 2%nat = Returned (s', log) /\
    serve online s' notification = serve online server notification.
Proof.
  apply (registration_leaves_other_paths online server "arn:other" "other" 2%nat
           notification).
  - discriminate.
  - vm_compute. discriminate.
Defined.

Lemma unknown_type_501_witness :
  serve online server unknownType =
  (Returned tt,
   mkExchange (response StatusNotImplemented "not implemented")
     notificationText false []).
Proof.
  apply (unknown_type_501 online server unknownType topic).
  - vm_compute. reflexivity.
  - vm_compute. reflexivity.
  - vm_compute. discriminate.
  - vm_compute. discriminate.
Defined.

Lemma response_follows_routing_witness :
  w (serve online server wrongChannel).2 = response StatusBadRequest "bad request".
Proof.
  apply (response_follows_routing online server wrongChannel
           (serve online server wrongChannel).2).
  vm_compute. reflexivity.
Defined.

Lemma callbacks_are_registered_witness :
  (serve online server confirmation).1 = Returned tt /\
  w (serve online server confirmation).2 = response StatusOK "ok".
Proof.
  destruct (callbacks_are_registered online server confirmation 1%nat None)
    as (Ho & Hw & _).
  - assert (H : callbacks (trace (serve online server confirmation).2)
                = [(1%nat, None)]) by (vm_compute; reflexivity).
    rewrite H. now left.
  - now split.
Defined.

Lemma callback_is_last_witness :
  callbacks [HttpGet (Func := nat) "http://example.test/confirm"] = [] /\
  exists url pre mid,
    [HttpGet (Func := nat) "http://example.test/confirm"] = pre ++ HttpGet url :: mid /\
    prints pre /\ prints mid /\ http_Get_fails online url = false.
Proof.
  destruct (callback_is_last online server confirmation 1%nat None
              [HttpGet "http://example.test/confirm"] [])
    as (_ & Hc & Hpre).
  - vm_compute. reflexivity.
  - now split.
Defined.

Lemma panic_leaves_nothing_witness :
  w (serve online server emptyConfirmation).2 = newResponseWriter /\
  gets (trace (serve online server emptyConfirmation).2) = [] /\
  callbacks (trace (serve online server emptyConfirmation).2) = [].
Proof.
  destruct (panic_leaves_nothing online server emptyConfirmation
              "interface conversion: interface {} is nil, not string"
              (serve online server emptyConfirmation).2)
    as (Hw & _ & _ & Hg & Hc & _).
  - vm_compute. reflexivity.
  - auto.
Defined.




Lemma null_body_is_no_data_witness :
  exists st,
    serve online server nullNotification = (Returned tt, st) /\
    w st = response StatusOK "ok" /\ trace st = [].
Proof.
  apply (null_body_is_no_data online server nullNotification topic "Notification" 4).
  - repeat split; vm_compute; reflexivity.
  - now right.
  - vm_compute. reflexivity.
  - vm_compute. split; discriminate.
  - vm_compute. discriminate.
  - vm_compute. reflexivity.
Defined.

Lemma negative_content_length_panics_witness :
  serve online server negativeLength =
  (Panicked "runtime error: makeslice: len out of range", start negativeLength).
Proof.
  apply (negative_content_length_panics online server negativeLength topic
           "Notification" (-1)).
  - repeat split; vm_compute; reflexivity.
  - now right.
  - vm_compute. reflexivity.
  - reflexivity.
Defined.

Lemma content_length_above_maxAlloc_panics_witness :
  serve online server aboveMaxAlloc =
  (Panicked "runtime error: makeslice: len out of range", start aboveMaxAlloc).
Proof.
  apply (content_length_above_maxAlloc_panics online server aboveMaxAlloc topic
           "SubscriptionConfirmation" 281474976710657).
  - repeat split; vm_compute; reflexivity.
  - now left.
  - vm_compute. reflexivity.
  - reflexivity.
  - vm_compute. reflexivity.
Defined.

Lemma bytes_past_content_length_ignored_witness :
  (serve online server (mkRequest "/sns" notificationHeaders (notificationText +:+ ""))).1 =
  (serve online server (mkRequest "/sns" notificationHeaders (notificationText +:+ "tail"))).1 /\
  w (serve online server (mkRequest "/sns" notificationHeaders (notificationText +:+ ""))).2 =
  w (serve online server (mkRequest "/sns" notificationHeaders (notificationText +:+ "tail"))).2 /\
  trace (serve online server (mkRequest "/sns" notificationHeaders (notificationText +:+ ""))).2 =
  trace (serve online server (mkRequest "/sns" notificationHeaders (notificationText +:+ "tail"))).2 /\
  bodyClosed (serve online server (mkRequest "/sns" notificationHeaders (notificationText +:+ ""))).2 =
  bodyClosed (serve online server (mkRequest "/sns" notificationHeaders (notificationText +:+ "tail"))).2.
Proof.
  apply (bytes_past_content_length_ignored online server "/sns" notificationHeaders
           notificationText "" "tail").
  vm_compute. reflexivity.
Defined.

Lemma raw_notification_delivers_witness :
  exists st,
    serve online server rawHello = (Returned tt, st) /\
    responded st StatusOK "ok" /\
    callbacks (trace st) = [(1%nat, Some (Message.mk "" "hello" "abc" noon))].
Proof.
  destruct (raw_notification_delivers online server rawHello topic 5)
    as [(st & E & R & C) Hts].
  - repeat split; vm_compute; reflexivity.
  - vm_compute. reflexivity.
  - vm_compute. reflexivity.
  - vm_compute. split; discriminate.
  - rewrite Hts in C.
    + exists st. repeat split; [exact E | apply R.. | exact C].
    + unfold validTime. vm_compute. repeat split; discriminate.
    + vm_compute. split; discriminate.
Defined.

Lemma confirmation_panics_witness :
  exists msg st,
    serve online server emptyConfirmation = (Panicked msg, st) /\
    wStatus (w st) = None /\ wBody (w st) = "" /\
    gets (trace st) = [] /\ callbacks (trace st) = [].
Proof.
  apply (confirmation_panics online server emptyConfirmation topic 2 ∅).
  - repeat split; vm_compute; reflexivity.
  - repeat split; try (vm_compute; reflexivity); try (vm_compute; discriminate).
  - intros url. vm_compute. discriminate.
Defined.

Lemma notification_panics_witness :
  exists msg st,
    serve online server emptyNotification = (Panicked msg, st) /\
    wStatus (w st) = None /\ callbacks (trace st) = [].
Proof.
  apply (notification_panics online server emptyNotification topic 2 ∅).
  - repeat split; vm_compute; reflexivity.
  - repeat split; try (vm_compute; reflexivity); try (vm_compute; discriminate).
  - left. intros x. vm_compute. discriminate.
Defined.

Lemma notification_subject_panics_witness :
  exists msg st,
    serve online' server boolSubject = (Panicked msg, st) /\
    wStatus (w st) = None /\ callbacks (trace st) = [].
Proof.
  apply (notification_subject_panics online' server boolSubject topic 90
           boolSubjectData "hello" "abc" "2024-03-09T07:05:03.12Z").
  - repeat split; vm_compute; reflexivity.
  - repeat split; try (vm_compute; reflexivity); try (vm_compute; discriminate).
  - vm_compute. reflexivity.
  - vm_compute. reflexivity.
  - vm_compute. reflexivity.
  - vm_compute. discriminate.
  - intros x. vm_compute. discriminate.
Defined.

Lemma raw_confirmation_panics_witness :
  exists st,
    serve online server rawConfirmation =
      (Panicked "interface conversion: interface {} is nil, not string", st) /\
    w st = newResponseWriter /\ trace st = [].
Proof.
  apply (raw_confirmation_panics online server rawConfirmation topic 5).
  - repeat split; vm_compute; reflexivity.
  - vm_compute. reflexivity.
  - vm_compute. reflexivity.
  - vm_compute. split; discriminate.
Defined.


Lemma body_closed_only_when_confirmed_witness :
  exists td url,
    topics_lookup server (URL_Path confirmation) = Some td /\
    Header_Get (Header_ confirmation) "x-amz-sns-message-type" = "SubscriptionConfirmation" /\
    gets (trace (serve online server confirmation).2) = [url] /\
    http_Get_fails online url = false /\
    callbacks (trace (serve online server confirmation).2) = [(Callback td, None)].
Proof.
  apply (body_closed_only_when_confirmed online server confirmation).
  vm_compute. reflexivity.
Defined.

End Covered.
